(** * bwsd0/web: the middleware pipeline, the access log and the certificate
    provider, embedded in Rocq.

    The Go handlers are embedded as programs of a small effect monad [M]
    whose events are the calls a handler can make on its environment: the
    methods of [http.ResponseWriter], the clock, the entropy source, the
    logger, the standard output, the file system and the crypto library.
    [run] interprets such programs over an explicit [World].  Middlewares are
    functions from handlers to handlers, as in the source. *)

From Stdlib Require Import ZArith Ascii String List Lia.
From stdpp Require Import base option list strings gmap.

Local Open Scope Z_scope.

(* ===================================================================== *)
(** ** Byte and string helpers (strings, path, encoding/hex, net/textproto) *)
(* ===================================================================== *)

Module Str.

Definition chars (s : string) : list ascii := String.list_ascii_of_string s.
Definition of_chars (l : list ascii) : string := String.string_of_list_ascii l.

Definition code (c : ascii) : Z := Z.of_N (Ascii.N_of_ascii c).
Definition of_code (z : Z) : ascii := Ascii.ascii_of_N (Z.to_N z).

(** [len(s)]: the number of bytes of [s]. *)
Definition len (s : string) : Z := Z.of_nat (String.length s).

(** [strings.HasPrefix(s, prefix)] *)
Definition HasPrefix (s pre : string) : bool := String.prefix pre s.

Definition is_lower (c : ascii) : bool := (97 <=? code c) && (code c <=? 122).
Definition is_upper (c : ascii) : bool := (65 <=? code c) && (code c <=? 90).
Definition is_digit (c : ascii) : bool := (48 <=? code c) && (code c <=? 57).

Definition to_upper (c : ascii) : ascii :=
  if is_lower c then of_code (code c - 32) else c.
Definition to_lower (c : ascii) : ascii :=
  if is_upper c then of_code (code c + 32) else c.

(** [strings.ToLower] on ASCII input. *)
Definition ToLower (s : string) : string := of_chars (map to_lower (chars s)).

(** [strings.Join(elems, sep)] *)
Fixpoint Join (elems : list string) (sep : string) : string :=
  match elems with
  | [] => ""
  | [e] => e
  | e :: rest => e +:+ sep +:+ Join rest sep
  end.

(** One hexadecimal digit, lower case, as [encoding/hex] and
    [strconv.AppendInt(_, _, 16)] print it. *)
Definition hexdigit (z : Z) : ascii :=
  if z <? 10 then of_code (48 + z) else of_code (87 + z).

(** [hex.Encode]: two digits per byte, high nibble first. *)
Definition hex_byte (b : Z) : list ascii :=
  [hexdigit (Z.shiftr b 4); hexdigit (Z.land b 15)].
Definition hex_encode (bs : list Z) : string :=
  of_chars (concat (map hex_byte bs)).

(** [sort.Strings]: insertion sort by byte-wise lexicographic order. *)
Fixpoint insert_sorted (x : string) (l : list string) : list string :=
  match l with
  | [] => [x]
  | y :: l' => if String.leb x y then x :: l else y :: insert_sorted x l'
  end.
Definition sort_strings (l : list string) : list string :=
  foldr insert_sorted [] l.

(** [path.Base]: strip trailing slashes, keep what follows the last
    slash; the empty path gives ".", an all-slash path gives "/". *)
Fixpoint strip_leading_slashes (l : list ascii) : list ascii :=
  match l with
  | "/"%char :: l' => strip_leading_slashes l'
  | _ => l
  end.
Fixpoint take_until_slash (l : list ascii) : list ascii :=
  match l with
  | [] => []
  | c :: l' => if Ascii.eqb c "/" then [] else c :: take_until_slash l'
  end.
Definition path_Base (p : string) : string :=
  if String.eqb p "" then "."
  else
    let stripped := strip_leading_slashes (rev (chars p)) in
    let last := rev (take_until_slash stripped) in
    match last with
    | [] => "/"
    | _ => of_chars last
    end.

(** [validHeaderFieldByte] of net/textproto: the token characters of
    RFC 7230. *)
Definition validHeaderFieldByte (c : ascii) : bool :=
  is_lower c || is_upper c || is_digit c ||
  existsb (Ascii.eqb c)
    ["!"; "#"; "$"; "%"; "&"; "'"; "*"; "+"; "-"; "."; "^"; "_"; "`"; "|"; "~"]%char.

Fixpoint canon (upper : bool) (l : list ascii) : list ascii :=
  match l with
  | [] => []
  | c :: l' =>
      let c' := if upper then to_upper c else to_lower c in
      c' :: canon (Ascii.eqb c' "-") l'
  end.

(** [textproto.CanonicalMIMEHeaderKey]: a key with a byte that is not a
    token character is returned unchanged; otherwise the first letter and
    every letter after a dash are upper-cased and the others lower-cased. *)
Definition CanonicalMIMEHeaderKey (s : string) : string :=
  if forallb validHeaderFieldByte (chars s)
  then of_chars (canon true (chars s))
  else s.

(** [hexEscapeNonASCII] of net/http: every byte >= 0x80 becomes %xx. *)
Definition hexEscapeNonASCII (s : string) : string :=
  of_chars (concat (map (fun c =>
    if 128 <=? code c then "%"%char :: hex_byte (code c) else [c]) (chars s))).

(** [htmlEscape] of net/http (its [htmlReplacer]). *)
Definition htmlEscape (s : string) : string :=
  of_chars (concat (map (fun c =>
    if Ascii.eqb c "&" then chars "&amp;"
    else if Ascii.eqb c "<" then chars "&lt;"
    else if Ascii.eqb c ">" then chars "&gt;"
    else if Ascii.eqb c (of_code 34) then chars "&#34;"
    else if Ascii.eqb c "'" then chars "&#39;"
    else [c]) (chars s))).

Definition newline : string := String (of_code 10) "".

End Str.

(* ===================================================================== *)
(** ** The net/http data the handlers see *)
(* ===================================================================== *)

(** [http.Header]: canonical key to list of values. *)
Abbreviation Header := (gmap string (list string)).

Definition Header_Set (k v : string) (h : Header) : Header :=
  <[Str.CanonicalMIMEHeaderKey k := [v]]> h.
Definition Header_Add (k v : string) (h : Header) : Header :=
  <[Str.CanonicalMIMEHeaderKey k :=
      default [] (h !! Str.CanonicalMIMEHeaderKey k) ++ [v]]> h.
Definition Header_Del (k : string) (h : Header) : Header :=
  delete (Str.CanonicalMIMEHeaderKey k) h.
Definition Header_Get (k : string) (h : Header) : string :=
  match h !! Str.CanonicalMIMEHeaderKey k with
  | Some (v :: _) => v
  | _ => ""
  end.

(** [http.StatusText] *)
Definition StatusText (code : Z) : string :=
  match code with
  | 100 => "Continue" | 101 => "Switching Protocols" | 102 => "Processing"
  | 103 => "Early Hints"
  | 200 => "OK" | 201 => "Created" | 202 => "Accepted"
  | 203 => "Non-Authoritative Information" | 204 => "No Content"
  | 205 => "Reset Content" | 206 => "Partial Content" | 207 => "Multi-Status"
  | 208 => "Already Reported" | 226 => "IM Used"
  | 300 => "Multiple Choices" | 301 => "Moved Permanently" | 302 => "Found"
  | 303 => "See Other" | 304 => "Not Modified" | 305 => "Use Proxy"
  | 307 => "Temporary Redirect" | 308 => "Permanent Redirect"
  | 400 => "Bad Request" | 401 => "Unauthorized" | 402 => "Payment Required"
  | 403 => "Forbidden" | 404 => "Not Found" | 405 => "Method Not Allowed"
  | 406 => "Not Acceptable" | 407 => "Proxy Authentication Required"
  | 408 => "Request Timeout" | 409 => "Conflict" | 410 => "Gone"
  | 411 => "Length Required" | 412 => "Precondition Failed"
  | 413 => "Request Entity Too Large" | 414 => "Request URI Too Long"
  | 415 => "Unsupported Media Type" | 416 => "Requested Range Not Satisfiable"
  | 417 => "Expectation Failed" | 418 => "I'm a teapot"
  | 421 => "Misdirected Request" | 422 => "Unprocessable Entity"
  | 423 => "Locked" | 424 => "Failed Dependency" | 425 => "Too Early"
  | 426 => "Upgrade Required" | 428 => "Precondition Required"
  | 429 => "Too Many Requests" | 431 => "Request Header Fields Too Large"
  | 451 => "Unavailable For Legal Reasons"
  | 500 => "Internal Server Error" | 501 => "Not Implemented"
  | 502 => "Bad Gateway" | 503 => "Service Unavailable"
  | 504 => "Gateway Timeout" | 505 => "HTTP Version Not Supported"
  | 506 => "Variant Also Negotiates" | 507 => "Insufficient Storage"
  | 508 => "Loop Detected" | 510 => "Not Extended"
  | 511 => "Network Authentication Required"
  | _ => ""
  end.

Definition StatusMovedPermanently : Z := 301.
Definition StatusNotFound : Z := 404.
Definition StatusMethodNotAllowed : Z := 405.
Definition StatusRequestURITooLong : Z := 414.
Definition StatusInternalServerError : Z := 500.

(** [url.URL].  [EscapedPath] and [EscapedFragment] hold what the methods
    of these names return; [User] holds the rendered user information. *)
Record URL := mkURL {
  Scheme : string;
  Opaque : string;
  User : option string;
  Host : string;
  Path : string;
  EscapedPath : string;
  OmitHost : bool;
  ForceQuery : bool;
  RawQuery : string;
  EscapedFragment : string;
}.

Definition URL_with_Scheme (s : string) (u : URL) : URL :=
  mkURL s (Opaque u) (User u) (Host u) (Path u) (EscapedPath u) (OmitHost u)
        (ForceQuery u) (RawQuery u) (EscapedFragment u).

Definition nonempty (s : string) : bool := negb (String.eqb s "").

(** The first path segment contains a colon: [URL.String] then prefixes
    "./" to a relative path that would otherwise read as a scheme. *)
Definition first_segment_has_colon (p : string) : bool :=
  existsb (fun c => Ascii.eqb c ":") (Str.take_until_slash (Str.chars p)).

(** The [String] method of [URL]. *)
Definition URL_String (u : URL) : string :=
  let scheme := if nonempty (Scheme u) then Scheme u +:+ ":" else "" in
  let rest :=
    if nonempty (Opaque u) then Opaque u
    else
      let authority :=
        if nonempty (Scheme u) || nonempty (Host u) || bool_decide (is_Some (User u))
        then
          if OmitHost u && negb (nonempty (Host u)) && bool_decide (User u = None)
          then ""
          else
            (if nonempty (Host u) || nonempty (Path u) || bool_decide (is_Some (User u))
             then "//" else "")
            +:+ match User u with Some ui => ui +:+ "@" | None => "" end
            +:+ Host u
        else "" in
      let path := EscapedPath u in
      let sep :=
        match Str.chars path with
        | c :: _ => if negb (Ascii.eqb c "/") && nonempty (Host u) then "/" else ""
        | [] => ""
        end in
      let dot :=
        if negb (nonempty (scheme +:+ authority +:+ sep)) && first_segment_has_colon path
        then "./" else "" in
      authority +:+ sep +:+ dot +:+ path in
  let query := if ForceQuery u || nonempty (RawQuery u) then "?" +:+ RawQuery u else "" in
  let frag := if nonempty (EscapedFragment u) then "#" +:+ EscapedFragment u else "" in
  scheme +:+ rest +:+ query +:+ frag.

(** [UUID]: sixteen bytes. *)
Definition UUID := list Z.
Definition UUID_zero : UUID := replicate 16 0.

(** Values stored in a request context. *)
Inductive CtxVal :=
| CtxUUID (u : UUID)
| CtxOther (s : string).

(** [context.Context], as the chain of [WithValue] bindings, newest first. *)
Definition Context := list (string * CtxVal).

Definition Context_WithValue (ctx : Context) (k : string) (v : CtxVal) : Context :=
  (k, v) :: ctx.
Fixpoint Context_Value (ctx : Context) (k : string) : option CtxVal :=
  match ctx with
  | [] => None
  | (k', v) :: ctx' => if String.eqb k' k then Some v else Context_Value ctx' k
  end.

(** [http.Request].  [TLS] is [Some] connection state when the request came
    over TLS ([r.TLS != nil]).  [BasicAuth] and [RemoteHostPort] hold what
    [r.BasicAuth()] and [net.SplitHostPort(r.RemoteAddr)] return. *)
Record Request := mkRequest {
  Method : string;
  url : URL;
  Proto : string;
  ReqHeader : Header;
  ReqHost : string;
  TLS : option string;
  RemoteAddr : string;
  RemoteHostPort : option (string * string);
  BasicAuth : option (string * string);
  ctx : Context;
}.

Definition Request_WithContext (r : Request) (c : Context) : Request :=
  mkRequest (Method r) (url r) (Proto r) (ReqHeader r) (ReqHost r) (TLS r)
            (RemoteAddr r) (RemoteHostPort r) (BasicAuth r) c.
Definition Request_with_URL (r : Request) (u : URL) : Request :=
  mkRequest (Method r) u (Proto r) (ReqHeader r) (ReqHost r) (TLS r)
            (RemoteAddr r) (RemoteHostPort r) (BasicAuth r) (ctx r).

Definition UserAgent (r : Request) : string := Header_Get "User-Agent" (ReqHeader r).
Definition Referer (r : Request) : string := Header_Get "Referer" (ReqHeader r).

(* ===================================================================== *)
(** ** Records of the repository that events carry *)
(* ===================================================================== *)

(** [CLFEntry]; [ts] is an instant in nanoseconds. *)
Record CLFEntry := mkCLFEntry {
  addr : string;
  userID : string;
  ident : string;
  ts : Z;
  method : string;
  path : string;
  proto : string;
  status : Z;
  size : Z;
  ua : string;
  referrer : string;
}.

(** A recovered panic value, as [%v] prints it. *)
Definition PanicVal := string.

(** What the package logger is asked to print, one constructor per call
    site: [logger.Println(l)] on a [*CLFEntry] (printed through its
    [String] method), the "slow request" line, the panic line of [Recover],
    the "UUID" error line, and plain text. *)
Inductive LogLine :=
| LogCLF (e : CLFEntry)
| LogSlow (u : UUID) (took : Z)
| LogPanic (v : PanicVal) (c : Context)
| LogUUIDError
| LogText (s : string).

(** The fields of [x509.Certificate] that [selfSignedX509] fills in; times
    are instants in nanoseconds. *)
Record Certificate := mkCertificate {
  SerialNumber : Z;
  Organization : list string;
  NotBefore : Z;
  NotAfter : Z;
  KeyUsage : Z;
  ExtKeyUsage : list Z;
  IsCA : bool;
}.

Definition PrivateKey := list Z.

(** What [x509.CreateCertificate] returns: the encoded template together
    with the signature over it. *)
Record DER := mkDER { tbs : Certificate; signature : list Z }.

(** [tls.Config] with its one [tls.Certificate]. *)
Record TLSConfig := mkTLSConfig {
  CertificateDER : list DER;
  CertPrivateKey : PrivateKey;
}.

(* ===================================================================== *)
(** ** The effect monad *)
(* ===================================================================== *)

(** The calls a handler makes on its environment, indexed by the type of
    their result. *)
Inductive Ev : Type -> Type :=
| HSet (k v : string) : Ev unit                    (* w.Header().Set(k, v) *)
| HAdd (k v : string) : Ev unit                    (* w.Header().Add(k, v) *)
| HDel (k : string) : Ev unit                      (* w.Header().Del(k) *)
| HIndex (k : string) : Ev (option (list string))  (* w.Header()[k] *)
| WriteHeader (code : Z) : Ev unit                 (* w.WriteHeader(code) *)
| Write (b : string) : Ev unit                     (* w.Write(b) *)
| TimeNow : Ev Z                                   (* time.Now() *)
| ReadFull (n : nat) : Ev (list Z * bool)          (* io.ReadFull(rander, buf) *)
| LoggerPrint (l : LogLine) : Ev unit              (* logger.Print* *)
| Println (s : string) : Ev unit                   (* fmt.Println(s) *)
| DebugStack : Ev string                           (* debug.Stack() *)
| FsOpen (name : string) : Ev (option string)      (* fsys.Open(name) and read *)
| GenerateKey : Ev (option PrivateKey)             (* ecdsa.GenerateKey *)
| CreateCertificate (tmpl : Certificate) (priv : PrivateKey)
    : Ev (option DER).                             (* x509.CreateCertificate *)

(** Programs: return, panic, or make a call and go on with its result. *)
Inductive M (A : Type) : Type :=
| Ret (a : A)
| Panic (v : PanicVal)
| Vis {X : Type} (e : Ev X) (k : X -> M A).

Arguments Ret {A} a.
Arguments Panic {A} v.
Arguments Vis {A X} e k.

Fixpoint bind {A B : Type} (m : M A) (f : A -> M B) : M B :=
  match m with
  | Ret a => f a
  | Panic v => Panic v
  | Vis e k => Vis e (fun x => bind (k x) f)
  end.

Definition call {X : Type} (e : Ev X) : M X := Vis e Ret.

Declare Scope M_scope.
Delimit Scope M_scope with M.
Bind Scope M_scope with M.
Notation "x ← y ; z" := (bind y (fun x => z))
  (at level 20, y at level 100, z at level 200, only parsing) : M_scope.
Notation "x ;; z" := (bind x (fun _ => z))
  (at level 100, z at level 200, only parsing, right associativity) : M_scope.
Local Open Scope M_scope.

(** [defer func() { if err := recover(); err != nil { h(err) } }()] around
    [p]: when [p] panics with [v], [recover()] returns [v], the panic stops
    and [h v] runs in its place; when [p] returns, [recover()] returns nil
    and nothing more happens.  A recovered value is never nil (since Go 1.21
    [panic(nil)] is recovered as a [*runtime.PanicNilError]). *)
Fixpoint defer_recover (p : M unit) (h : PanicVal -> M unit) : M unit :=
  match p with
  | Ret a => Ret a
  | Panic v => h v
  | Vis e k => Vis e (fun x => defer_recover (k x) h)
  end.

(** The server's own [http.ResponseWriter]: the live header map, the status
    line and headers that went out (fixed by the first [WriteHeader], or by
    the first [Write] with an implicit 200), the body written so far, and
    every code [WriteHeader] was called with, in order. *)
Record response := mkResponse {
  header : Header;
  sent : option (Z * Header);
  body : string;
  whcalls : list Z;
}.

Definition response_new : response := mkResponse ∅ None "" [].

Definition resp_hmap (f : Header -> Header) (w : response) : response :=
  mkResponse (f (header w)) (sent w) (body w) (whcalls w).

Definition commit (code : Z) (w : response) : response :=
  match sent w with
  | Some _ => w
  | None => mkResponse (header w) (Some (code, header w)) (body w) (whcalls w)
  end.

Definition resp_WriteHeader (code : Z) (w : response) : response :=
  let w' := commit code w in
  mkResponse (header w') (sent w') (body w') (whcalls w ++ [code]).

Definition resp_Write (b : string) (w : response) : response :=
  let w' := commit 200 w in
  mkResponse (header w') (sent w') (body w' +:+ b) (whcalls w').

(** The status the client sees. *)
Definition sent_status (w : response) : option Z := fst <$> sent w.
Definition sent_header (w : response) : option Header := snd <$> sent w.

(** Everything outside the handler: the response under construction, the
    log, standard output, the clock (its successive readings), the entropy
    source, the stack dump, the served file tree with the names opened so
    far, and the crypto library's answers. *)
Record World := mkWorld {
  resp : response;
  logs : list LogLine;
  stdout : list string;
  clock : nat -> Z;
  ticks : nat;
  entropy : list Z;
  stack : string;
  files : gmap string string;
  opened : list string;
  keygen : list Z -> option (PrivateKey * list Z);
  sign : Certificate -> PrivateKey -> option (list Z);
}.

Definition with_resp (f : response -> response) (s : World) : World :=
  mkWorld (f (resp s)) (logs s) (stdout s) (clock s) (ticks s) (entropy s)
          (stack s) (files s) (opened s) (keygen s) (sign s).
Definition with_logs (f : list LogLine -> list LogLine) (s : World) : World :=
  mkWorld (resp s) (f (logs s)) (stdout s) (clock s) (ticks s) (entropy s)
          (stack s) (files s) (opened s) (keygen s) (sign s).
Definition with_stdout (f : list string -> list string) (s : World) : World :=
  mkWorld (resp s) (logs s) (f (stdout s)) (clock s) (ticks s) (entropy s)
          (stack s) (files s) (opened s) (keygen s) (sign s).
Definition with_ticks (n : nat) (s : World) : World :=
  mkWorld (resp s) (logs s) (stdout s) (clock s) n (entropy s)
          (stack s) (files s) (opened s) (keygen s) (sign s).
Definition with_entropy (e : list Z) (s : World) : World :=
  mkWorld (resp s) (logs s) (stdout s) (clock s) (ticks s) e
          (stack s) (files s) (opened s) (keygen s) (sign s).
Definition with_opened (f : list string -> list string) (s : World) : World :=
  mkWorld (resp s) (logs s) (stdout s) (clock s) (ticks s) (entropy s)
          (stack s) (files s) (f (opened s)) (keygen s) (sign s).

(** One call against the world. *)
Definition step {X : Type} (e : Ev X) (s : World) : X * World :=
  match e in Ev X return X * World with
  | HSet k v => (tt, with_resp (resp_hmap (Header_Set k v)) s)
  | HAdd k v => (tt, with_resp (resp_hmap (Header_Add k v)) s)
  | HDel k => (tt, with_resp (resp_hmap (Header_Del k)) s)
  | HIndex k => (header (resp s) !! k, s)
  | WriteHeader code => (tt, with_resp (resp_WriteHeader code) s)
  | Write b => (tt, with_resp (resp_Write b) s)
  | TimeNow => (clock s (ticks s), with_ticks (S (ticks s)) s)
  | ReadFull n =>
      if decide (n ≤ length (entropy s))%nat
      then ((take n (entropy s), true), with_entropy (drop n (entropy s)) s)
      else ((entropy s ++ replicate (n - length (entropy s)) 0, false),
            with_entropy [] s)
  | LoggerPrint l => (tt, with_logs (fun ls => ls ++ [l]) s)
  | Println str => (tt, with_stdout (fun o => o ++ [str]) s)
  | DebugStack => (stack s, s)
  | FsOpen name => (files s !! name, with_opened (fun o => o ++ [name]) s)
  | GenerateKey =>
      match keygen s (entropy s) with
      | Some (key, rest) => (Some key, with_entropy rest s)
      | None => (None, s)
      end
  | CreateCertificate tmpl priv =>
      (mkDER tmpl <$> sign s tmpl priv, s)
  end.

Inductive Result (A : Type) : Type :=
| Done (a : A)
| Panicked (v : PanicVal).
Arguments Done {A} a.
Arguments Panicked {A} v.

Fixpoint run {A : Type} (p : M A) (s : World) : Result A * World :=
  match p with
  | Ret a => (Done a, s)
  | Panic v => (Panicked v, s)
  | Vis e k => let '(x, s') := step e s in run (k x) s'
  end.

(* ===================================================================== *)
(** ** net/http helpers the handlers call *)
(* ===================================================================== *)

(** [http.Handler] and the repository's [Middleware]. *)
Definition Handler := Request -> M unit.
Definition Middleware := Handler -> Handler.

(** [http.Error] *)
Definition http_Error (error : string) (code : Z) : M unit :=
  call (HSet "Content-Type" "text/plain; charset=utf-8");;
  call (HSet "X-Content-Type-Options" "nosniff");;
  call (WriteHeader code);;
  call (Write (error +:+ Str.newline)).

(** [http.NotFound] *)
Definition http_NotFound : M unit := http_Error "404 page not found" StatusNotFound.

(** [http.Redirect] for a target that already has a scheme. *)
Definition http_Redirect (r : Request) (target : string) (code : Z) : M unit :=
  ct ← call (HIndex "Content-Type");
  let hadCT := bool_decide (is_Some ct) in
  call (HSet "Location" (Str.hexEscapeNonASCII target));;
  (if negb hadCT && (String.eqb (Method r) "GET" || String.eqb (Method r) "HEAD")
   then call (HSet "Content-Type" "text/html; charset=utf-8")
   else Ret tt);;
  call (WriteHeader code);;
  (if negb hadCT && String.eqb (Method r) "GET"
   then call (Write ("<a href=" +:+ String (Str.of_code 34) "" +:+ Str.htmlEscape target
                     +:+ String (Str.of_code 34) "" +:+ ">" +:+ StatusText code
                     +:+ "</a>." +:+ Str.newline +:+ Str.newline))
   else Ret tt).

(** [http.FileServer(http.FS(fsys))] on the requests the handlers are
    studied with: a GET request without a Range header or a conditional
    header, whose path is rooted and cleaned and names a regular file or
    nothing.  For these the file server opens the path once and answers
    with the stored bytes, else with [http.NotFound].  What it does for
    HEAD, range and conditional requests, for paths that [path.Clean]
    changes or that end in a slash, and for directories is not part of
    this definition. *)
Definition FileServer_ServeHTTP : Handler := fun r =>
  c ← call (FsOpen (Path (url r)));
  match c with
  | Some content => call (Write content)
  | None => http_NotFound
  end.

(* ===================================================================== *)
(** ** The middleware pipeline *)
(* ===================================================================== *)

(** [Apply]: the loop [for i := range m { h = m[len(m)-1-i](h) }].  The
    index is always in range; the [None] branch stands for Go's index
    panic and is shown unreachable below. *)
Definition Apply_step (m : list Middleware) (h : Handler) (i : nat) : Handler :=
  match m !! (length m - 1 - i)%nat with
  | Some mw => mw h
  | None => h
  end.

Definition Apply (m : list Middleware) : Middleware := fun h =>
  foldl (Apply_step m) h (seq 0 (length m)).

(** The nesting [m1(m2(...mn(h)))] that the comment on [Apply] promises. *)
Definition nest (m : list Middleware) (h : Handler) : Handler :=
  foldr (fun mw acc => mw acc) h m.

(** [Recover] *)
Definition Recover : Middleware := fun next r =>
  defer_recover (next r) (fun err =>
    http_Error (StatusText StatusInternalServerError) StatusInternalServerError;;
    call (LoggerPrint (LogPanic err (ctx r)));;
    st ← call DebugStack;
    call (Println st)).

(* ===================================================================== *)
(** ** Correlation identifiers *)
(* ===================================================================== *)

(** [NewV4UUID]; the flag is [err == nil]. *)
Definition NewV4UUID : M (UUID * bool) :=
  x ← call (ReadFull 16);
  let '(u, ok) := x in
  if negb ok then Ret (u, false)
  else
    let u := <[6%nat := Z.lor (Z.land (default 0 (u !! 6%nat)) 0x0f) 0x40]> u in
    let u := <[8%nat := Z.lor (Z.land (default 0 (u !! 8%nat)) 0x3f) 0x80]> u in
    Ret (u, true).

Definition NewV4UUIDRandom : M (UUID * bool) := NewV4UUID.

(** [UUID.String]: the five hex groups at their offsets in the 36-byte
    buffer, separated by dashes. *)
Definition UUID_String (uuid : UUID) : string :=
  Str.hex_encode (take 4 uuid) +:+ "-" +:+
  Str.hex_encode (take 2 (drop 4 uuid)) +:+ "-" +:+
  Str.hex_encode (take 2 (drop 6 uuid)) +:+ "-" +:+
  Str.hex_encode (take 2 (drop 8 uuid)) +:+ "-" +:+
  Str.hex_encode (drop 10 uuid).

(** [NewRequestContext] *)
Definition NewRequestContext (r : Request) : M Context :=
  let rid := Header_Get "uuid" (ReqHeader r) in
  uuid ← (if String.eqb rid ""
          then x ← NewV4UUIDRandom;
               let '(u, ok) := x in
               (if negb ok then call (LoggerPrint LogUUIDError) else Ret tt);;
               Ret u
          else Ret UUID_zero);
  Ret (Context_WithValue (ctx r) "uuid" (CtxUUID uuid)).

(* ===================================================================== *)
(** ** The access log *)
(* ===================================================================== *)

Definition CLF_with_status_size (l : CLFEntry) (st sz : Z) : CLFEntry :=
  mkCLFEntry (addr l) (userID l) (ident l) (ts l) (method l) (path l)
             (proto l) st sz (ua l) (referrer l).

(** [NewCLFEntry] *)
Definition NewCLFEntry (r : Request) (uuid : UUID) : M CLFEntry :=
  now ← call TimeNow;
  Ret (mkCLFEntry
         (match RemoteHostPort r with Some (a, _) => a | None => "-" end)
         (match BasicAuth r with Some (u, _) => u | None => "-" end)
         (UUID_String uuid)
         now
         (Method r)
         (Path (url r))
         (Proto r)
         0
         0
         (if nonempty (UserAgent r) then UserAgent r else "-")
         (if nonempty (Referer r) then Referer r else "-")).

(** The [status] closure of [CLFEntry.String]: the printed status column. *)
Definition CLF_status_column (code : Z) : option Z :=
  if String.eqb (StatusText code) "" then None else Some code.

(** [statusRecorder]: the wrapped writer is the world's response; the
    fields [status] and [size] are [rec_status] and [rec_size] here. *)
Record statusRecorder := mkStatusRecorder {
  rec_status : Z;
  rec_size : Z;
}.

(** [(rec *statusRecorder) WriteHeader(code)]: [rec.status = code]; the call
    [rec.ResponseWriter.WriteHeader(code)] that follows is the event itself,
    passed on by [ServeHTTP_recorded]. *)
Definition statusRecorder_WriteHeader (code : Z) (rec : statusRecorder)
  : statusRecorder :=
  mkStatusRecorder code (rec_size rec).

(** What a call on the recorder does to the recorder itself.  Only
    [WriteHeader] is a method of [*statusRecorder]; every other method
    ([Header], [Write]) is the embedded writer's and leaves the recorder
    alone. *)
Definition statusRecorder_observe {X : Type} (e : Ev X) (rec : statusRecorder)
  : statusRecorder :=
  match e with
  | WriteHeader code => statusRecorder_WriteHeader code rec
  | _ => rec
  end.

(** [next.ServeHTTP(wr, r)]: the downstream program runs with the recorder
    as its writer; the result is the recorder when it returns. *)
Fixpoint ServeHTTP_recorded (p : M unit) (rec : statusRecorder) : M statusRecorder :=
  match p with
  | Ret _ => Ret rec
  | Panic v => Panic v
  | Vis e k => Vis e (fun x => ServeHTTP_recorded (k x) (statusRecorder_observe e rec))
  end.

(** [time.Duration] bounds and [Time.Sub], which saturates. *)
Definition minDuration : Z := - 2 ^ 63.
Definition maxDuration : Z := 2 ^ 63 - 1.
Definition Time_Sub (t u : Z) : Z :=
  let d := t - u in
  if d <? minDuration then minDuration
  else if maxDuration <? d then maxDuration
  else d.
Definition Time_Add (t d : Z) : Z := t + d.

Definition Millisecond : Z := 1000000.
Definition Second : Z := 1000 * Millisecond.
Definition Minute : Z := 60 * Second.
Definition Hour : Z := 60 * Minute.

(** The test [took/1000 >= 200] of [Log]; Go's [/] truncates. *)
Definition slow (took : Z) : bool := 200 <=? Z.quot took 1000.

(** [Log] *)
Definition Log : Middleware := fun next r =>
  c ← NewRequestContext r;
  let '(uuid, ok) :=
    match Context_Value c "uuid" with
    | Some (CtxUUID u) => (u, true)
    | _ => (UUID_zero, false)
    end in
  (if negb ok
   then call (LoggerPrint (LogText "malformed uuid in request context"))
   else Ret tt);;
  let wr := mkStatusRecorder 200 0 in
  l ← NewCLFEntry r uuid;
  wr ← ServeHTTP_recorded (next (Request_WithContext r c)) wr;
  t1 ← call TimeNow;
  let l := CLF_with_status_size l (rec_status wr) (rec_size wr) in
  call (LoggerPrint (LogCLF l));;
  let took := Time_Sub t1 (ts l) in
  if slow took
  then call (LoggerPrint (LogSlow uuid took))
  else Ret tt.

(** [Default] *)
Definition Default : Middleware := Apply [Log; Recover].

(* ===================================================================== *)
(** ** Security headers and the method gate *)
(* ===================================================================== *)

Definition cspNone : string := "'none'".
Definition cspSelf : string := "'self'".

Definition csp : gmap string (list string) :=
  list_to_map
    [("default-src", [cspNone]); ("base-uri", [cspNone]); ("font-src", [cspSelf]);
     ("form-action", [cspNone]); ("frame-ancestors", [cspNone]);
     ("img-src", [cspSelf]); ("style-src", [cspSelf])].

(** [DefaultCSP] after [init]: one "key values" string per directive,
    sorted, joined with semicolons. *)
Definition DefaultCSP : string :=
  Str.Join
    (Str.sort_strings
       (map (fun kv => fst kv +:+ " " +:+ Str.Join (snd kv) " ") (map_to_list csp)))
    ";".

Definition hostList : gmap string bool :=
  list_to_map [("blog.bwsd.net", true); ("bwsd.net", true); ("www.bwsd.net", true)].

(** [SecureHeaders()] *)
Definition SecureHeaders : Middleware := fun h r =>
  let host := Str.ToLower (ReqHost r) in
  let host := if negb (default false (hostList !! host)) then "bwsd.net" else host in
  if bool_decide (TLS r = None) || String.eqb (Scheme (url r)) "http"
  then
    let r := Request_with_URL r (URL_with_Scheme "https" (url r)) in
    http_Redirect r (URL_String (url r)) StatusMovedPermanently
  else
    call (HSet "Strict-Transport-Security"
               "max-age=63072000; includeSubDomains; preload");;
    call (HSet "Content-Security-Policy" DefaultCSP);;
    call (HSet "X-Frame-Options" "Deny");;
    call (HSet "Permissions-Policy" "interest-cohort=()");;
    call (HSet "X-Content-Type-Options" "nosniff");;
    call (HSet "Referrer-Policy" "same-origin");;
    h r.

Definition maxURILen : Z := 512.

Definition DefaultAllowedMethods : list string := ["GET"; "HEAD"; "OPTIONS"].

(** The loop [for _, am := range ... { if r.Method == am { ...; return } }]
    followed by the 405 answer. *)
Fixpoint method_gate (ams : list string) (h : Handler) (r : Request) : M unit :=
  match ams with
  | [] => http_Error (StatusText StatusMethodNotAllowed) StatusMethodNotAllowed
  | am :: rest => if String.eqb (Method r) am then h r else method_gate rest h r
  end.

(** [AcceptHeaders(m...)] *)
Definition AcceptHeaders (m : list string) : Middleware := fun h r =>
  if maxURILen <=? Str.len (URL_String (url r))
  then http_Error (StatusText StatusRequestURITooLong) StatusRequestURITooLong
  else
    let m := if (length m =? 0)%nat then DefaultAllowedMethods else m in
    method_gate DefaultAllowedMethods h r.

(** [middleware(mux)] *)
Definition middleware (mux : Handler) : Handler :=
  Apply [SecureHeaders; AcceptHeaders []] mux.

(* ===================================================================== *)
(** ** The static responder *)
(* ===================================================================== *)

(** [URL.Path = name]; the only caller passes the path the URL has. *)
Definition URL_with_Path (p : string) (u : URL) : URL :=
  mkURL (Scheme u) (Opaque u) (User u) (Host u) p (EscapedPath u) (OmitHost u)
        (ForceQuery u) (RawQuery u) (EscapedFragment u).

(** [serveStaticFS] *)
Definition serveStaticFS (r : Request) (name : string) : M unit :=
  let wkf := Str.path_Base name in
  let serve := FileServer_ServeHTTP (Request_with_URL r (URL_with_Path name (url r))) in
  if String.eqb wkf "robots.txt" then
    call (HSet "Cache-Control" "max-age=300");;
    call (HSet "Content-Type" "text/plain; charset=utf-8");;
    serve
  else if String.eqb wkf "security.txt" then
    call (HSet "Content-Type" "text/plain; charset=utf-8");;
    serve
  else Ret tt.

(** [Index] *)
Definition Index : Handler := fun r =>
  (if Str.HasPrefix (Path (url r)) "/.well-known/acme-challenge/"
   then http_NotFound
   else Ret tt);;
  serveStaticFS r (Path (url r)).

(* ===================================================================== *)
(** ** The self-signed certificate *)
(* ===================================================================== *)

Definition KeyUsageDigitalSignature : Z := Z.shiftl 1 0.
Definition KeyUsageCertSign : Z := Z.shiftl 1 5.
Definition ExtKeyUsageServerAuth : Z := 1.

Fixpoint big_endian (acc : Z) (bs : list Z) : Z :=
  match bs with
  | [] => acc
  | b :: bs' => big_endian (acc * 256 + b) bs'
  end.

(** [rand.Int(rand.Reader, 1 << 128)]: sixteen bytes read as one big-endian
    number, which is always below the limit. *)
Definition rand_Int_128 : M (option Z) :=
  x ← call (ReadFull 16);
  let '(bs, ok) := x in
  if ok then Ret (Some (big_endian 0 bs)) else Ret None.

(** [selfSignedX509]; [inr] carries the error. *)
Definition selfSignedX509 (dirCache : string) : M (TLSConfig + string) :=
  priv ← call GenerateKey;
  match priv with
  | None => Ret (inr "ecdsa.GenerateKey")
  | Some priv =>
      serial ← rand_Int_128;
      match serial with
      | None => Ret (inr "serial number")
      | Some serial =>
          now1 ← call TimeNow;
          now2 ← call TimeNow;
          let tmpl := mkCertificate
                        serial
                        ["web"]
                        (Time_Add now1 (- Minute))
                        (Time_Add now2 (7 * 24 * Hour))
                        (Z.lor KeyUsageDigitalSignature KeyUsageCertSign)
                        [ExtKeyUsageServerAuth]
                        true in
          der ← call (CreateCertificate tmpl priv);
          match der with
          | None => Ret (inr "x509.CreateCertificate")
          | Some der => Ret (inl (mkTLSConfig [der] priv))
          end
      end
  end.

(* ===================================================================== *)
(** ** Observers used in the statements *)
(* ===================================================================== *)

Definition add_logs (l : list LogLine) (s : World) : World :=
  with_logs (fun ls => ls ++ l) s.

(** A middleware that only marks its entry and its exit in the log. *)
Definition Visit (name : string) : Middleware := fun next r =>
  call (LoggerPrint (LogText ("in " +:+ name)));;
  next r;;
  call (LoggerPrint (LogText ("out " +:+ name))).

(** The request loop of one connection, as net/http runs it: every request
    gets a fresh response writer, and a panic that leaves the handler ends
    the loop. *)
Fixpoint conn_serve (h : Handler) (rs : list Request) (s : World)
  : Result (list response) * World :=
  match rs with
  | [] => (Done [], s)
  | r :: rs' =>
      match run (h r) (with_resp (fun _ => response_new) s) with
      | (Done _, s') =>
          match conn_serve h rs' s' with
          | (Done ws, s'') => (Done (resp s' :: ws), s'')
          | (Panicked v, s'') => (Panicked v, s'')
          end
      | (Panicked v, s') => (Panicked v, s')
      end
  end.

(** The last Combined-Log-Format entry of a log. *)
Fixpoint last_clf (ls : list LogLine) : option CLFEntry :=
  match ls with
  | [] => None
  | l :: ls' =>
      match last_clf ls' with
      | Some e => Some e
      | None => match l with LogCLF e => Some e | _ => None end
      end
  end.

(** The security headers of [SecureHeaders]. *)
Definition security_headers : list string :=
  ["Strict-Transport-Security"; "Content-Security-Policy"; "X-Frame-Options";
   "Permissions-Policy"; "X-Content-Type-Options"; "Referrer-Policy"].

(** The code an event passes to [WriteHeader], if it is that call. *)
Definition wh_code {X : Type} (e : Ev X) : list Z :=
  match e with
  | WriteHeader code => [code]
  | _ => []
  end.

(** The codes a program passes to [WriteHeader] when run from [s], in
    order. *)
Fixpoint wh_codes {A : Type} (p : M A) (s : World) : list Z :=
  match p with
  | Ret _ => []
  | Panic _ => []
  | Vis e k => let '(x, s') := step e s in wh_code e ++ wh_codes (k x) s'
  end.

(** The last code of a list of [WriteHeader] calls, [d] when there is none. *)
Definition last_code (d : Z) (codes : list Z) : Z := foldl (fun _ c => c) d codes.

(** The entry of [Log]: the request handed to the downstream handler (with
    the new context), the identifier found in that context, the log entry
    built at entry, and the world in which the downstream handler starts. *)
Definition Log_entry (r : Request) (s : World)
  : option (Request * UUID * CLFEntry * World) :=
  match run (NewRequestContext r) s with
  | (Done c, s0) =>
      match Context_Value c "uuid" with
      | Some (CtxUUID uuid) =>
          match run (NewCLFEntry r uuid) s0 with
          | (Done l, s1) => Some (Request_WithContext r c, uuid, l, s1)
          | (Panicked _, _) => None
          end
      | _ => None
      end
  | (Panicked _, _) => None
  end.

(** The exit of [Log] once the downstream handler has returned in world
    [s2], having passed [codes] to [WriteHeader]. *)
Definition Log_exit (uuid : UUID) (l : CLFEntry) (codes : list Z) (s2 : World) : World :=
  let t1 := clock s2 (ticks s2) in
  let l' := CLF_with_status_size l (last_code 200 codes) 0 in
  let took := Time_Sub t1 (ts l) in
  let s3 := add_logs [LogCLF l'] (with_ticks (S (ticks s2)) s2) in
  if slow took then add_logs [LogSlow uuid took] s3 else s3.

(** What [http.Error] leaves in the response. *)
Definition resp_Error (error : string) (code : Z) (w : response) : response :=
  resp_Write (error +:+ Str.newline)
    (resp_WriteHeader code
       (resp_hmap (Header_Set "X-Content-Type-Options" "nosniff")
          (resp_hmap (Header_Set "Content-Type" "text/plain; charset=utf-8") w))).

(** A plaintext GET request and a world to serve it in. *)
Definition sample_url : URL :=
  mkURL "" "" None "" "/index.html" "/index.html" false false "" "".
Definition sample_request : Request :=
  mkRequest "GET" sample_url "HTTP/1.1" ∅ "bwsd.net" None "192.0.2.1:4000"
            (Some ("192.0.2.1", "4000")) None [].
Definition sample_world : World :=
  mkWorld response_new [] [] (fun n => Z.of_nat n * Millisecond) 0
          (map Z.of_nat (seq 1 64)) "goroutine 1 [running]" ∅ []
          (fun e => if decide (32 ≤ length e)%nat then Some (take 32 e, drop 32 e) else None)
          (fun _ _ => Some [1]).

(** [sample_request] carrying its own correlation identifier. *)
Definition traced_request : Request :=
  mkRequest "GET" sample_url "HTTP/1.1"
            (Header_Set "uuid" "123e4567-e89b-42d3-a456-426614174000" ∅)
            "bwsd.net" None "192.0.2.1:4000" (Some ("192.0.2.1", "4000")) None [].

(** A POST request, and the request for a well-known file under the ACME
    challenge prefix together with a world whose file tree holds it. *)
Definition post_request : Request :=
  mkRequest "POST" sample_url "HTTP/1.1" ∅ "bwsd.net" (Some "TLS 1.3")
            "192.0.2.1:4000" (Some ("192.0.2.1", "4000")) None [].
Definition get_request : Request :=
  mkRequest "GET" sample_url "HTTP/1.1" ∅ "bwsd.net" (Some "TLS 1.3")
            "192.0.2.1:4000" (Some ("192.0.2.1", "4000")) None [].

Definition acme_url : URL :=
  mkURL "" "" None "" "/.well-known/acme-challenge/robots.txt"
        "/.well-known/acme-challenge/robots.txt" false false "" "".
Definition acme_request : Request :=
  mkRequest "GET" acme_url "HTTP/1.1" ∅ "bwsd.net" (Some "TLS 1.3")
            "192.0.2.1:4000" (Some ("192.0.2.1", "4000")) None [].
Definition acme_world : World :=
  mkWorld response_new [] [] (clock sample_world) 0 (entropy sample_world)
          (stack sample_world)
          {[ "/.well-known/acme-challenge/robots.txt" := "User-agent: *" ]} []
          (keygen sample_world) (sign sample_world).

(* ===================================================================== *)
(** ** The host policy of the automated certificate path *)
(* ===================================================================== *)

(** [strings.HasSuffix(s, suffix)]:
    [len(s) >= len(suffix) && s[len(s)-len(suffix):] == suffix]. *)
Definition HasSuffix (s suffix : string) : bool :=
  (String.length suffix <=? String.length s)%nat &&
  String.eqb (String.substring (String.length s - String.length suffix)
                               (String.length suffix) s)
             suffix.

(** The two errors of the [HostPolicy] closure: the one [os.Hostname]
    returned, and "domain (host) disallowed by autocert host policy". *)
Inductive HostPolicyError :=
| HostnameError (err : string)
| DomainDisallowed (host : string).

(** The [HostPolicy] closure of [autocertX509]; [hostname] is what
    [os.Hostname()] returns, the name or its error.  [None] is the nil
    error. *)
Definition HostPolicy (hostname : string + string) (host : string)
  : option HostPolicyError :=
  match hostname with
  | inr err => Some (HostnameError err)
  | inl domain =>
      if negb (HasSuffix host ("." +:+ domain)) && negb (String.eqb host domain)
      then Some (DomainDisallowed host)
      else None
  end.

(** The directive strings that [init] builds from a list of map entries,
    one "key values" string per entry, in the order the entries come. *)
Definition csp_directives (entries : list (string * list string)) : list string :=
  map (fun kv => fst kv +:+ " " +:+ Str.Join (snd kv) " ") entries.

(** [String.leb] as a relation. *)
Definition string_le (a b : string) : Prop := String.leb a b = true.

(** The header map after the six [Set] calls of [SecureHeaders], in the
    order the handler makes them. *)
Definition with_security_headers (hd : Header) : Header :=
  Header_Set "Referrer-Policy" "same-origin"
    (Header_Set "X-Content-Type-Options" "nosniff"
       (Header_Set "Permissions-Policy" "interest-cohort=()"
          (Header_Set "X-Frame-Options" "Deny"
             (Header_Set "Content-Security-Policy" DefaultCSP
                (Header_Set "Strict-Transport-Security"
                   "max-age=63072000; includeSubDomains; preload" hd))))).

(** The values [SecureHeaders] gives its headers. *)
Definition security_header_value (k : string) : option string :=
  if String.eqb k "Strict-Transport-Security"
  then Some "max-age=63072000; includeSubDomains; preload"
  else if String.eqb k "Content-Security-Policy" then Some DefaultCSP
  else if String.eqb k "X-Frame-Options" then Some "Deny"
  else if String.eqb k "Permissions-Policy" then Some "interest-cohort=()"
  else if String.eqb k "X-Content-Type-Options" then Some "nosniff"
  else if String.eqb k "Referrer-Policy" then Some "same-origin"
  else None.

(** A request over TLS for a URL of 600 bytes. *)
Definition long_url : URL :=
  mkURL "" "" None "" "" (String.concat "" (replicate 60 "/123456789")) false false "" "".
Definition long_request : Request :=
  mkRequest "GET" long_url "HTTP/1.1" ∅ "bwsd.net" (Some "TLS 1.3")
            "192.0.2.1:4000" (Some ("192.0.2.1", "4000")) None [].

(** A request that came over TLS with an absolute http URL, and a PUT
    request over TLS. *)
Definition http_scheme_url : URL :=
  mkURL "http" "" None "bwsd.net" "/index.html" "/index.html" false false "" "".
Definition http_scheme_request : Request :=
  mkRequest "GET" http_scheme_url "HTTP/1.1" ∅ "bwsd.net" (Some "TLS 1.3")
            "192.0.2.1:4000" (Some ("192.0.2.1", "4000")) None [].
Definition put_request : Request :=
  mkRequest "PUT" sample_url "HTTP/1.1" ∅ "bwsd.net" (Some "TLS 1.3")
            "192.0.2.1:4000" (Some ("192.0.2.1", "4000")) None [].

(** A request for /robots.txt over TLS and a world whose file tree holds
    that file. *)
Definition robots_url : URL :=
  mkURL "" "" None "" "/robots.txt" "/robots.txt" false false "" "".
Definition robots_request : Request :=
  mkRequest "GET" robots_url "HTTP/1.1" ∅ "bwsd.net" (Some "TLS 1.3")
            "192.0.2.1:4000" (Some ("192.0.2.1", "4000")) None [].
Definition robots_world : World :=
  mkWorld response_new [] [] (clock sample_world) 0 (entropy sample_world)
          (stack sample_world)
          {[ "/robots.txt" := "User-agent: *" ]} []
          (keygen sample_world) (sign sample_world).

(** A downstream handler that has started its answer when it panics. *)
Definition partial_then_panic : Handler := fun _ =>
  call (Write "partial");; Panic "boom".

(** The request headers on which [http.FileServer] answers with something
    other than the whole file: a range request and the conditional
    requests. *)
Definition conditional_headers : list string :=
  ["Range"; "If-Match"; "If-None-Match"; "If-Modified-Since";
   "If-Unmodified-Since"; "If-Range"].

(** The elements of a path, split at every slash; [cur] holds the element
    being read, last character first. *)
Fixpoint path_elements (cur : list ascii) (l : list ascii) : list (list ascii) :=
  match l with
  | [] => [rev cur]
  | c :: l' =>
      if Ascii.eqb c "/" then rev cur :: path_elements [] l'
      else path_elements (c :: cur) l'
  end.

Definition plain_element (e : list ascii) : bool :=
  match e with
  | [] => false
  | [c] => negb (Ascii.eqb c ".")
  | [c; d] => negb (Ascii.eqb c "." && Ascii.eqb d ".")
  | _ => true
  end.

(** A rooted path that [path.Clean] returns as it is and that does not end
    in a slash: after the leading slash every element is non-empty and is
    neither "." nor "..". *)
Definition clean_rooted (p : string) : bool :=
  match path_elements [] (Str.chars p) with
  | [] :: e :: es => forallb plain_element (e :: es)
  | _ => false
  end.

(** The requests for a file [name] that [FileServer_ServeHTTP] stands for:
    GET, none of the range and conditional headers, a cleaned rooted
    name. *)
Definition whole_file_request (r : Request) (name : string) : bool :=
  String.eqb (Method r) "GET" &&
  forallb (fun k => String.eqb (Header_Get k (ReqHeader r)) "") conditional_headers &&
  clean_rooted name.

(* ===================================================================== *)
(** ** Running programs: general facts *)
(* ===================================================================== *)

Lemma run_bind {A B : Type} (m : M A) (f : A -> M B) (s : World) :
  run (bind m f) s =
  match run m s with
  | (Done a, s') => run (f a) s'
  | (Panicked v, s') => (Panicked v, s')
  end.
Proof.
  revert s. induction m as [a | v | X e k IH]; intros s; simpl; try reflexivity.
  destruct (step e s) as [x s']. apply IH.
Qed.

Lemma run_call {X : Type} (e : Ev X) (s : World) :
  run (call e) s = (Done (step e s).1, (step e s).2).
Proof. unfold call. simpl. destruct (step e s); reflexivity. Qed.

Lemma run_defer_recover (p : M unit) (h : PanicVal -> M unit) (s : World) :
  run (defer_recover p h) s =
  match run p s with
  | (Done a, s') => (Done a, s')
  | (Panicked v, s') => run (h v) s'
  end.
Proof.
  revert s. induction p as [a | v | X e k IH]; intros s; simpl; try reflexivity.
  destruct (step e s) as [x s']. apply IH.
Qed.

Lemma add_logs_app (l1 l2 : list LogLine) (s : World) :
  add_logs l2 (add_logs l1 s) = add_logs (l1 ++ l2) s.
Proof. destruct s; unfold add_logs, with_logs; simpl. by rewrite app_assoc. Qed.

Lemma add_logs_nil (s : World) : add_logs [] s = s.
Proof. destruct s; unfold add_logs, with_logs; simpl. by rewrite app_nil_r. Qed.

(* ===================================================================== *)
(** ** Apply *)
(* ===================================================================== *)

Lemma Apply_prefix (m : list Middleware) (h : Handler) (n : nat) :
  (n ≤ length m)%nat ->
  foldl (Apply_step m) h (seq 0 n) = nest (drop (length m - n) m) h.
Proof.
  induction n as [| n IH]; intros Hn.
  - simpl. rewrite Nat.sub_0_r, drop_all. reflexivity.
  - rewrite seq_S, foldl_app. cbn [foldl Nat.add]. rewrite IH by lia.
    unfold Apply_step.
    destruct (m !! (length m - 1 - n)%nat) as [mw |] eqn:Hmw.
    + replace (length m - S n)%nat with (length m - 1 - n)%nat by lia.
      rewrite (drop_S (A:=Middleware) m mw _ Hmw).
      replace (S (length m - 1 - n)) with (length m - n)%nat by lia.
      reflexivity.
    + apply (lookup_ge_None (A:=Middleware)) in Hmw. lia.
Qed.

(** The index [len(m)-1-i] of the loop is always in range. *)
Lemma Apply_index_in_range (m : list Middleware) (i : nat) :
  i ∈ seq 0 (length m) -> is_Some (m !! (length m - 1 - i)%nat).
Proof.
  intros Hi. apply elem_of_seq in Hi. apply lookup_lt_is_Some_2. lia.
Qed.

Lemma Apply_nest (m : list Middleware) (h : Handler) : Apply m h = nest m h.
Proof.
  unfold Apply. rewrite Apply_prefix by lia.
  by rewrite Nat.sub_diag.
Qed.

Lemma run_Visit (n : string) (next : Handler) (r : Request) (s : World) :
  run (Visit n next r) s =
  match run (next r) (add_logs [LogText ("in " +:+ n)] s) with
  | (Done _, s') => (Done tt, add_logs [LogText ("out " +:+ n)] s')
  | (Panicked v, s') => (Panicked v, s')
  end.
Proof.
  unfold Visit. rewrite run_bind, run_call. cbn [step fst snd].
  rewrite run_bind. fold (add_logs [LogText ("in " +:+ n)] s).
  destruct (run (next r) _) as [[[] | v] s']; [| reflexivity].
  rewrite run_call. reflexivity.
Qed.

Lemma run_nest_Visit (names : list string) (h : Handler) (r : Request) (s s' : World) :
  run (h r) (add_logs (map (fun n => LogText ("in " +:+ n)) names) s) = (Done tt, s') ->
  run (nest (map Visit names) h r) s =
    (Done tt, add_logs (map (fun n => LogText ("out " +:+ n)) (rev names)) s').
Proof.
  revert s s'. induction names as [| n names IH]; intros s s' Hrun.
  - simpl in *. rewrite add_logs_nil in *. exact Hrun.
  - cbn [map nest foldr]. rewrite run_Visit.
    fold (nest (map Visit names) h).
    rewrite (IH _ s'); last first.
    { rewrite add_logs_app. exact Hrun. }
    rewrite add_logs_app. cbn [rev]. rewrite map_app. reflexivity.
Qed.

(** C1: [Apply(m1, ..., mn)(h)] is [m1(m2(...mn(h)))] for every list of
    middlewares and every base handler.  The first middleware is outermost:
    when each middleware marks its entry and its exit, the entries are
    logged in the order listed, then the base handler runs, then the exits
    are logged in the reverse order. *)
Theorem Apply_is_nesting :
  (forall (m : list Middleware) (h : Handler),
      Apply m h = foldr (fun mw acc => mw acc) h m) /\
  (forall (names : list string) (h : Handler) (r : Request) (s s' : World),
      run (h r) (add_logs (map (fun n => LogText ("in " +:+ n)) names) s) = (Done tt, s') ->
      run (Apply (map Visit names) h r) s =
        (Done tt, add_logs (map (fun n => LogText ("out " +:+ n)) (rev names)) s')).
Proof.
  split.
  - intros m h. apply Apply_nest.
  - intros names h r s s' Hrun. rewrite Apply_nest. by apply run_nest_Visit.
Qed.

Arguments Header_Set : simpl never.
Arguments Header_Add : simpl never.
Arguments Header_Del : simpl never.

Ltac run_steps :=
  repeat (rewrite ?run_bind, ?run_call; cbn [step fst snd run]).

Lemma Apply_is_nesting_witness :
  run (Apply (map Visit ["outer"; "inner"]) (fun _ => call (Println "base"))
         sample_request) sample_world =
    (Done tt,
     add_logs [LogText "out inner"; LogText "out outer"]
       (with_stdout (fun o => o ++ ["base"])
          (add_logs [LogText "in outer"; LogText "in inner"] sample_world))).
Proof.
  apply (proj2 Apply_is_nesting ["outer"; "inner"]
           (fun _ => call (Println "base")) sample_request sample_world).
  reflexivity.
Defined.

(* ===================================================================== *)
(** ** The response writer *)
(* ===================================================================== *)

Lemma header_commit (c : Z) (w : response) : header (commit c w) = header w.
Proof. unfold commit. by destruct (sent w). Qed.
Lemma whcalls_commit (c : Z) (w : response) : whcalls (commit c w) = whcalls w.
Proof. unfold commit. by destruct (sent w). Qed.
Lemma body_commit (c : Z) (w : response) : body (commit c w) = body w.
Proof. unfold commit. by destruct (sent w). Qed.
Lemma sent_commit (c : Z) (w : response) :
  sent (commit c w) = Some (default (c, header w) (sent w)).
Proof. unfold commit. by destruct (sent w) eqn:E; simpl; rewrite ?E. Qed.

Lemma header_WriteHeader (c : Z) (w : response) : header (resp_WriteHeader c w) = header w.
Proof. apply header_commit. Qed.
Lemma whcalls_WriteHeader (c : Z) (w : response) :
  whcalls (resp_WriteHeader c w) = whcalls w ++ [c].
Proof. reflexivity. Qed.
Lemma body_WriteHeader (c : Z) (w : response) : body (resp_WriteHeader c w) = body w.
Proof. apply body_commit. Qed.
Lemma sent_WriteHeader (c : Z) (w : response) :
  sent (resp_WriteHeader c w) = Some (default (c, header w) (sent w)).
Proof. apply sent_commit. Qed.

Lemma header_Write (b : string) (w : response) : header (resp_Write b w) = header w.
Proof. apply header_commit. Qed.
Lemma whcalls_Write (b : string) (w : response) : whcalls (resp_Write b w) = whcalls w.
Proof. apply whcalls_commit. Qed.
Lemma body_Write (b : string) (w : response) : body (resp_Write b w) = body w +:+ b.
Proof. unfold resp_Write. simpl. by rewrite body_commit. Qed.
Lemma sent_Write (b : string) (w : response) :
  sent (resp_Write b w) = Some (default (200, header w) (sent w)).
Proof. apply sent_commit. Qed.

Lemma header_hmap (f : Header -> Header) (w : response) :
  header (resp_hmap f w) = f (header w).
Proof. reflexivity. Qed.
Lemma whcalls_hmap (f : Header -> Header) (w : response) :
  whcalls (resp_hmap f w) = whcalls w.
Proof. reflexivity. Qed.
Lemma body_hmap (f : Header -> Header) (w : response) : body (resp_hmap f w) = body w.
Proof. reflexivity. Qed.
Lemma sent_hmap (f : Header -> Header) (w : response) : sent (resp_hmap f w) = sent w.
Proof. reflexivity. Qed.

Create Rewrite HintDb resp.
#[local] Hint Rewrite header_commit whcalls_commit body_commit sent_commit
  header_WriteHeader whcalls_WriteHeader body_WriteHeader sent_WriteHeader
  header_Write whcalls_Write body_Write sent_Write
  header_hmap whcalls_hmap body_hmap sent_hmap : resp.

Lemma lookup_Header_Set_ne (k v k' : string) (h : Header) :
  k' <> Str.CanonicalMIMEHeaderKey k -> Header_Set k v h !! k' = h !! k'.
Proof. intros Hne. unfold Header_Set. by rewrite lookup_insert_ne. Qed.

Lemma lookup_Header_Set_eq (k v : string) (h : Header) :
  Header_Set k v h !! Str.CanonicalMIMEHeaderKey k = Some [v].
Proof. unfold Header_Set. by rewrite lookup_insert_eq. Qed.

Lemma run_http_Error (error : string) (code : Z) (s : World) :
  run (http_Error error code) s = (Done tt, with_resp (resp_Error error code) s).
Proof. unfold http_Error. run_steps. reflexivity. Qed.

Lemma run_http_Redirect (r : Request) (target : string) (code : Z) (s : World) :
  exists w : response,
    run (http_Redirect r target code) s = (Done tt, with_resp (fun _ => w) s) /\
    whcalls w = whcalls (resp s) ++ [code] /\
    header w !! "Location" = Some [Str.hexEscapeNonASCII target] /\
    (forall k, k <> "Location" -> k <> "Content-Type" ->
               header w !! k = header (resp s) !! k) /\
    (sent (resp s) = None -> sent w = Some (code, header w)).
Proof.
  unfold http_Redirect. run_steps.
  destruct (negb (bool_decide (is_Some (header (resp s) !! "Content-Type"))) &&
            ((Method r =? "GET")%string || (Method r =? "HEAD")%string));
    destruct (negb (bool_decide (is_Some (header (resp s) !! "Content-Type"))) &&
              (Method r =? "GET")%string);
    run_steps; eexists; (split; [reflexivity |]); cbn [resp with_resp];
    autorewrite with resp;
    (split; [reflexivity |]);
    (split; [by rewrite ?lookup_Header_Set_ne by done; apply (lookup_Header_Set_eq "Location") |]);
    (split; [intros k H1 H2; by rewrite ?lookup_Header_Set_ne by done |]);
    intros ->; reflexivity.
Qed.

Lemma SecureHeaders_plaintext (h : Handler) (r : Request) :
  TLS r = None ->
  SecureHeaders h r =
    http_Redirect (Request_with_URL r (URL_with_Scheme "https" (url r)))
                  (URL_String (URL_with_Scheme "https" (url r)))
                  StatusMovedPermanently.
Proof.
  intros HTLS. unfold SecureHeaders. rewrite HTLS.
  rewrite bool_decide_eq_true_2 by reflexivity. reflexivity.
Qed.

Lemma HasPrefix_app (p x : string) : Str.HasPrefix (p +:+ x) p = true.
Proof.
  unfold Str.HasPrefix. induction p as [| a p IH]; simpl.
  - by destruct x.
  - destruct (ascii_dec a a); [exact IH | congruence].
Qed.

Lemma https_target_prefix (u : URL) :
  Str.HasPrefix (URL_String (URL_with_Scheme "https" u)) "https:" = true.
Proof. unfold URL_String. apply (HasPrefix_app "https:"). Qed.

Lemma nonempty_true (s : string) : s <> "" -> nonempty s = true.
Proof. unfold nonempty. by destruct (String.eqb_spec s ""). Qed.

Lemma append_assoc (a b c : string) : (a +:+ b) +:+ c = a +:+ (b +:+ c).
Proof.
  induction a as [| x a IH]; [reflexivity |].
  change (String x ((a +:+ b) +:+ c) = String x (a +:+ (b +:+ c))).
  by rewrite IH.
Qed.

(** With a host and an absolute path, the redirect target reads
    https://host/path?query#fragment. *)
Lemma https_target_with_host (u : URL) :
  Opaque u = "" -> User u = None -> Host u <> "" ->
  Str.HasPrefix (EscapedPath u) "/" = true ->
  URL_String (URL_with_Scheme "https" u) =
    "https://" +:+ Host u +:+ EscapedPath u +:+
    (if ForceQuery u || nonempty (RawQuery u) then "?" +:+ RawQuery u else "") +:+
    (if nonempty (EscapedFragment u) then "#" +:+ EscapedFragment u else "").
Proof.
  intros Ho Hu Hh Hp. unfold URL_String.
  cbn [Scheme Opaque User Host Path EscapedPath OmitHost ForceQuery RawQuery
       EscapedFragment URL_with_Scheme].
  rewrite Ho, Hu, (nonempty_true _ Hh).
  destruct (EscapedPath u) as [| c p] eqn:Hpath.
  { vm_compute in Hp. discriminate. }
  unfold Str.HasPrefix in Hp. cbn [String.prefix] in Hp.
  destruct (ascii_dec "/" c) as [<- |]; [| discriminate].
  change (nonempty "https") with true. change (nonempty "") with false.
  rewrite andb_false_r. cbn [orb andb negb Str.chars String.list_ascii_of_string].
  change (negb ("/" =? "/")%char) with false. cbn [andb].
  change ("https" +:+ ":") with "https:".
  change (nonempty ("https:" +:+ ?x)) with true.
  cbn [negb andb]. rewrite !append_assoc. reflexivity.
Qed.

Lemma security_header_not_redirect_header (k : string) :
  k ∈ security_headers -> k <> "Location" /\ k <> "Content-Type".
Proof.
  unfold security_headers. intros Hk.
  repeat (apply elem_of_cons in Hk as [-> | Hk]; [by split |]).
  by apply elem_of_nil in Hk.
Qed.

(** For a request that did not arrive over TLS, the handler made by
    [SecureHeaders] is the permanent redirect to what [r.URL] reads once
    its scheme is https, whatever the downstream handler is, so the
    downstream handler is not called.  Run in any world, it returns after
    one [WriteHeader] call with 301, has set the Location header to that
    string, leaves each of the six security headers as it found it, and
    touches nothing but the response; when no status had been sent before,
    the client sees 301 with these headers. *)
Theorem SecureHeaders_plaintext_redirects (h : Handler) (r : Request) (s : World) :
  TLS r = None ->
  let target := URL_String (URL_with_Scheme "https" (url r)) in
  (forall h' : Handler, SecureHeaders h r = SecureHeaders h' r) /\
  Str.HasPrefix target "https:" = true /\
  exists w : response,
    run (SecureHeaders h r) s = (Done tt, with_resp (fun _ => w) s) /\
    whcalls w = whcalls (resp s) ++ [StatusMovedPermanently] /\
    header w !! "Location" = Some [Str.hexEscapeNonASCII target] /\
    (forall k, k ∈ security_headers -> header w !! k = header (resp s) !! k) /\
    (sent (resp s) = None ->
       sent w = Some (StatusMovedPermanently, header w)).
Proof.
  intros HTLS target. split; [| split].
  - intros h'. by rewrite !SecureHeaders_plaintext.
  - apply https_target_prefix.
  - rewrite SecureHeaders_plaintext by done.
    destruct (run_http_Redirect
                (Request_with_URL r (URL_with_Scheme "https" (url r)))
                target StatusMovedPermanently s)
      as (w & Hrun & Hcalls & Hloc & Hother & Hsent).
    exists w. repeat split; try done.
    intros k Hk. apply security_header_not_redirect_header in Hk as [? ?].
    by apply Hother.
Qed.

Lemma SecureHeaders_plaintext_redirects_witness :
  TLS sample_request = None /\
  exists w : response,
    run (SecureHeaders (fun _ => Panic "unreachable") sample_request) sample_world
      = (Done tt, with_resp (fun _ => w) sample_world) /\
    sent_status w = Some 301.
Proof.
  split; [reflexivity |].
  destruct (SecureHeaders_plaintext_redirects (fun _ => Panic "unreachable")
              sample_request sample_world eq_refl)
    as (_ & _ & w & Hrun & _ & _ & _ & Hsent).
  exists w. split; [exact Hrun |].
  unfold sent_status. rewrite Hsent by reflexivity. reflexivity.
Defined.

(** The URL of an origin-form request holds no host, and the redirect
    target then has an empty authority: https:// followed at once by the
    path. *)
Lemma https_target_origin_form (u : URL) :
  Opaque u = "" -> User u = None -> Host u = "" -> OmitHost u = false ->
  Path u <> "" ->
  URL_String (URL_with_Scheme "https" u) =
    "https://" +:+ EscapedPath u +:+
    (if ForceQuery u || nonempty (RawQuery u) then "?" +:+ RawQuery u else "") +:+
    (if nonempty (EscapedFragment u) then "#" +:+ EscapedFragment u else "").
Proof.
  intros Ho Hu Hh Hom Hp. unfold URL_String.
  cbn [Scheme Opaque User Host Path EscapedPath OmitHost ForceQuery RawQuery
       EscapedFragment URL_with_Scheme].
  rewrite Ho, Hu, Hh, Hom, (nonempty_true _ Hp).
  change (nonempty "https") with true. change (nonempty "") with false.
  cbn [orb andb negb].
  assert (Hsep : match Str.chars (EscapedPath u) with
                 | [] => ""
                 | c :: _ => if negb (c =? "/")%char && false then "/" else ""
                 end = "").
  { destruct (Str.chars (EscapedPath u)) as [| c ?]; [reflexivity |].
    by rewrite andb_false_r. }
  rewrite Hsep.
  change ("https" +:+ ":") with "https:".
  change (("//" +:+ "") +:+ "") with "//".
  change (nonempty (("https:" +:+ "//") +:+ "")) with true.
  cbn [negb andb]. rewrite !append_assoc. reflexivity.
Qed.

(** C2, on a plaintext GET for /index.html sent to the host bwsd.net: the
    URL of the request holds the path alone, as for every origin-form
    request.  Whatever the downstream handler is, the client gets a 301
    that carries none of the six security headers, and its Location is
    https:///index.html, a URL without a host, not
    https://bwsd.net/index.html. *)
Theorem SecureHeaders_plaintext_location :
  TLS sample_request = None /\
  ReqHost sample_request = "bwsd.net" /\
  URL_String (url sample_request) = "/index.html" /\
  forall h : Handler,
    exists w : response,
      run (SecureHeaders h sample_request) sample_world =
        (Done tt, with_resp (fun _ => w) sample_world) /\
      sent_status w = Some 301 /\
      (forall k, k ∈ security_headers ->
         header w !! k = None /\ (sent_header w ≫= (.!! k)) = None) /\
      header w !! "Location" = Some ["https:///index.html"] /\
      header w !! "Location" <> Some ["https://bwsd.net/index.html"].
Proof.
  split; [reflexivity |]. split; [reflexivity |]. split; [vm_compute; reflexivity |].
  intros h. rewrite SecureHeaders_plaintext by reflexivity.
  exists (resp (run (http_Redirect
                       (Request_with_URL sample_request
                          (URL_with_Scheme "https" (url sample_request)))
                       (URL_String (URL_with_Scheme "https" (url sample_request)))
                       StatusMovedPermanently) sample_world).2).
  split; [vm_compute; reflexivity |].
  split; [vm_compute; reflexivity |].
  split.
  - unfold security_headers. intros k Hk.
    repeat (apply elem_of_cons in Hk as [-> | Hk]; [vm_compute; by split |]).
    by apply elem_of_nil in Hk.
  - split; [vm_compute; reflexivity |]. vm_compute. discriminate.
Qed.

(* ===================================================================== *)
(** ** Recover *)
(* ===================================================================== *)

(** The world [Recover] leaves when the downstream panicked with [v] in
    world [s1]. *)
Lemma run_Recover_handler (v : PanicVal) (c : Context) (s1 : World) :
  run (http_Error (StatusText StatusInternalServerError) StatusInternalServerError;;
       call (LoggerPrint (LogPanic v c));;
       st ← call DebugStack;
       call (Println st)) s1 =
  (Done tt,
   with_stdout (fun o => o ++ [stack s1])
     (add_logs [LogPanic v c]
        (with_resp (resp_Error "Internal Server Error" 500) s1))).
Proof. rewrite run_bind, run_http_Error. run_steps. reflexivity. Qed.

Lemma run_Recover (next : Handler) (r : Request) (s : World) :
  run (Recover next r) s =
  match run (next r) s with
  | (Done a, s1) => (Done a, s1)
  | (Panicked v, s1) =>
      (Done tt,
       with_stdout (fun o => o ++ [stack s1])
         (add_logs [LogPanic v (ctx r)]
            (with_resp (resp_Error "Internal Server Error" 500) s1)))
  end.
Proof.
  unfold Recover. rewrite run_defer_recover.
  destruct (run (next r) s) as [[a | v] s1]; [reflexivity |].
  apply run_Recover_handler.
Qed.

Lemma Recover_returns (next : Handler) (r : Request) (s : World) :
  exists s', run (Recover next r) s = (Done tt, s').
Proof.
  rewrite run_Recover. destruct (run (next r) s) as [[[] | v] s1]; eauto.
Qed.

Lemma conn_serve_Recover (next : Handler) (rs : list Request) (s : World) :
  exists ws s', conn_serve (Recover next) rs s = (Done ws, s') /\ length ws = length rs.
Proof.
  revert s. induction rs as [| r rs IH]; intros s; simpl.
  - by exists [], s.
  - destruct (Recover_returns next r (with_resp (fun _ => response_new) s)) as [s1 ->].
    destruct (IH s1) as (ws & s' & -> & Hlen).
    exists (resp s1 :: ws), s'. simpl. by rewrite Hlen.
Qed.

(** C3, as amended: when the downstream handler panics with [v],
    [Recover] returns normally (the panic is not raised again); it has
    called [http.Error] once with the generic text and code 500, so the
    writer received exactly one more [WriteHeader], with 500, and one more
    body line.  The client sees status 500 when the downstream had not
    started its answer before the panic; when it had, the status already
    sent stays and the generic text follows what was written.  The
    recovered value is logged with the request context and the stack goes
    to standard output.  Whatever the downstream does, a connection served
    through [Recover] answers every one of its requests. *)
Theorem Recover_contains_panic
    (next : Handler) (r : Request) (s s1 : World) (v : PanicVal) :
  run (next r) s = (Panicked v, s1) ->
  (exists s2 : World,
     run (Recover next r) s = (Done tt, s2) /\
     resp s2 = resp_Error "Internal Server Error" 500 (resp s1) /\
     whcalls (resp s2) = whcalls (resp s1) ++ [500] /\
     body (resp s2) = body (resp s1) +:+ ("Internal Server Error" +:+ Str.newline) /\
     (sent (resp s1) = None -> sent_status (resp s2) = Some 500) /\
     (forall x, sent (resp s1) = Some x -> sent (resp s2) = Some x) /\
     logs s2 = logs s1 ++ [LogPanic v (ctx r)] /\
     stdout s2 = stdout s1 ++ [stack s1]) /\
  (forall (rs : list Request) (s0 : World),
     exists ws s', conn_serve (Recover next) rs s0 = (Done ws, s') /\
                   length ws = length rs).
Proof.
  intros Hpanic. split; [| apply conn_serve_Recover].
  eexists. rewrite run_Recover, Hpanic. split; [reflexivity |].
  cbn [resp logs stdout with_stdout add_logs with_logs with_resp].
  unfold resp_Error. autorewrite with resp.
  repeat split.
  - intros Hs. unfold sent_status. autorewrite with resp. rewrite Hs. reflexivity.
  - intros x Hs. autorewrite with resp. rewrite Hs. reflexivity.
Qed.

Lemma Recover_contains_panic_witness :
  exists s2 : World,
    run (Recover (fun _ => Panic "boom") sample_request) sample_world = (Done tt, s2) /\
    sent_status (resp s2) = Some 500 /\
    logs s2 = [LogPanic "boom" []].
Proof.
  destruct (Recover_contains_panic (fun _ => Panic "boom") sample_request
              sample_world sample_world "boom" eq_refl)
    as [(s2 & Hrun & _ & _ & _ & Hsent & _ & Hlogs & _) _].
  exists s2. split; [exact Hrun |]. split; [apply Hsent; reflexivity | exact Hlogs].
Defined.

(** A downstream handler that writes "partial" and then panics, behind
    [Recover] on a fresh response: the client has status 200, and the body
    is the partial output followed by the generic text. *)
Lemma Recover_after_partial_write :
  exists (s1 s2 : World),
    run (partial_then_panic sample_request) sample_world = (Panicked "boom", s1) /\
    run (Recover partial_then_panic sample_request) sample_world = (Done tt, s2) /\
    sent_status (resp s2) = Some 200 /\
    whcalls (resp s2) = [500] /\
    body (resp s2) = "partial" +:+ "Internal Server Error" +:+ Str.newline.
Proof.
  exists (run (partial_then_panic sample_request) sample_world).2,
         (run (Recover partial_then_panic sample_request) sample_world).2.
  vm_compute. repeat split.
Qed.

(** C3 as first stated, with the 500 reaching the client whenever the
    downstream handler panics, does not hold, even on a response that was
    fresh when the request came in: behind [Recover], a handler that
    writes before it panics leaves the client with status 200. *)
Lemma Recover_not_500_after_partial_write :
  ~ (forall (next : Handler) (r : Request) (s s1 : World) (v : PanicVal),
       resp s = response_new ->
       run (next r) s = (Panicked v, s1) ->
       exists s2 : World,
         run (Recover next r) s = (Done tt, s2) /\
         sent_status (resp s2) = Some 500).
Proof.
  intros H.
  destruct Recover_after_partial_write as (s1 & s2 & Hnext & Hrun & Hstatus & _).
  destruct (H partial_then_panic sample_request sample_world s1 "boom" eq_refl Hnext)
    as (s2' & Hrun' & Hstatus').
  rewrite Hrun in Hrun'. injection Hrun' as <-.
  rewrite Hstatus in Hstatus'. discriminate.
Qed.

(* ===================================================================== *)
(** ** Log *)
(* ===================================================================== *)

Lemma wh_codes_bind {A B : Type} (m : M A) (f : A -> M B) (s : World) :
  wh_codes (bind m f) s =
  wh_codes m s ++
  match run m s with
  | (Done a, s') => wh_codes (f a) s'
  | (Panicked _, _) => []
  end.
Proof.
  revert s. induction m as [a | v | X e k IH]; intros s; simpl; try reflexivity.
  destruct (step e s) as [x s']. by rewrite IH, app_assoc.
Qed.

Lemma whcalls_step {X : Type} (e : Ev X) (s : World) :
  whcalls (resp (step e s).2) = whcalls (resp s) ++ wh_code e.
Proof.
  destruct e; simpl; rewrite ?app_nil_r; try reflexivity.
  - apply whcalls_commit.
  - by destruct (decide _).
  - by destruct (keygen s (entropy s)) as [[? ?] |].
Qed.

Lemma whcalls_run {A : Type} (p : M A) (s : World) :
  whcalls (resp (run p s).2) = whcalls (resp s) ++ wh_codes p s.
Proof.
  revert s. induction p as [a | v | X e k IH]; intros s; simpl;
    rewrite ?app_nil_r; try reflexivity.
  pose proof (whcalls_step e s) as Hs.
  destruct (step e s) as [x s']. simpl in Hs.
  by rewrite IH, Hs, app_assoc.
Qed.

Lemma run_ServeHTTP_recorded (p : M unit) (rec : statusRecorder) (s : World) :
  run (ServeHTTP_recorded p rec) s =
  match run p s with
  | (Done _, s') =>
      (Done (mkStatusRecorder (last_code (rec_status rec) (wh_codes p s)) (rec_size rec)), s')
  | (Panicked v, s') => (Panicked v, s')
  end.
Proof.
  revert rec s. induction p as [a | v | X e k IH]; intros rec s; simpl.
  - by destruct rec.
  - reflexivity.
  - destruct (step e s) as [x s']. rewrite IH.
    destruct (run (k x) s') as [[a | v] s'']; [| reflexivity].
    do 2 f_equal. by destruct e.
Qed.

Lemma run_NewV4UUID (s : World) :
  exists u ok s', run NewV4UUID s = (Done (u, ok), s').
Proof.
  unfold NewV4UUID. rewrite run_bind, run_call.
  destruct (step (ReadFull 16) s) as [[u ok] s']. cbn [fst snd].
  destruct ok; simpl; eauto.
Qed.

Lemma run_NewRequestContext (r : Request) (s : World) :
  exists uuid s0,
    run (NewRequestContext r) s =
      (Done (Context_WithValue (ctx r) "uuid" (CtxUUID uuid)), s0) /\
    (Header_Get "uuid" (ReqHeader r) <> "" -> uuid = UUID_zero /\ s0 = s).
Proof.
  unfold NewRequestContext.
  destruct (String.eqb_spec (Header_Get "uuid" (ReqHeader r)) "") as [He | He].
  - rewrite run_bind, run_bind. unfold NewV4UUIDRandom.
    destruct (run_NewV4UUID s) as (u & ok & s' & ->).
    rewrite run_bind. destruct ok; simpl; eexists _, _; (split; [reflexivity | done]).
  - simpl. eexists _, _. split; [reflexivity | done].
Qed.

Lemma Log_entry_total (r : Request) (s : World) :
  exists r' uuid l s1,
    Log_entry r s = Some (r', uuid, l, s1) /\
    ident l = UUID_String uuid /\
    status l = 0 /\ size l = 0 /\
    ts l = clock s1 (pred (ticks s1)) /\
    (Header_Get "uuid" (ReqHeader r) <> "" -> uuid = UUID_zero).
Proof.
  unfold Log_entry.
  destruct (run_NewRequestContext r s) as (uuid & s0 & -> & Hz).
  cbn [Context_Value Context_WithValue]. rewrite String.eqb_refl.
  unfold NewCLFEntry. rewrite run_bind, run_call. cbn [step fst snd run].
  eexists _, _, _, _. split; [reflexivity |]. cbn.
  repeat split. intros H. by apply Hz.
Qed.

Lemma run_Log (next : Handler) (r r' : Request) (uuid : UUID) (l : CLFEntry)
    (s s1 : World) :
  Log_entry r s = Some (r', uuid, l, s1) ->
  run (Log next r) s =
  match run (next r') s1 with
  | (Done _, s2) => (Done tt, Log_exit uuid l (wh_codes (next r') s1) s2)
  | (Panicked v, s2) => (Panicked v, s2)
  end.
Proof.
  unfold Log_entry, Log. intros He. rewrite run_bind.
  destruct (run (NewRequestContext r) s) as [[c | v] s0]; [| discriminate].
  destruct (Context_Value c "uuid") as [[u | o] |]; try discriminate.
  cbn [negb]. rewrite run_bind. cbn [run]. rewrite run_bind.
  destruct (run (NewCLFEntry r u) s0) as [[l0 | v] s1']; [| discriminate].
  injection He as <- <- <- <-.
  rewrite run_bind, run_ServeHTTP_recorded.
  destruct (run (next (Request_WithContext r c)) s1') as [[[] | v] s2]; [| reflexivity].
  rewrite run_bind, run_call. cbn [step fst snd].
  rewrite run_bind, run_call. cbn [step fst snd rec_status rec_size].
  unfold Log_exit.
  destruct l0; cbn [ts CLF_with_status_size].
  destruct (slow _); [rewrite run_call |]; reflexivity.
Qed.

Lemma logs_Log_exit (uuid : UUID) (l : CLFEntry) (codes : list Z) (s2 : World) :
  logs (Log_exit uuid l codes s2) =
  logs s2 ++
  LogCLF (CLF_with_status_size l (last_code 200 codes) 0) ::
  (if slow (Time_Sub (clock s2 (ticks s2)) (ts l))
   then [LogSlow uuid (Time_Sub (clock s2 (ticks s2)) (ts l))]
   else []).
Proof.
  unfold Log_exit. destruct (slow _); simpl; [| reflexivity].
  by rewrite <- app_assoc.
Qed.

Lemma resp_Log_exit (uuid : UUID) (l : CLFEntry) (codes : list Z) (s2 : World) :
  resp (Log_exit uuid l codes s2) = resp s2.
Proof. unfold Log_exit. by destruct (slow _). Qed.

Lemma last_clf_app_clf (ls : list LogLine) (e : CLFEntry) (tl : list LogLine) :
  last_clf tl = None -> last_clf (ls ++ LogCLF e :: tl) = Some e.
Proof.
  intros Htl. induction ls as [| l ls IH]; simpl.
  - by rewrite Htl.
  - by rewrite IH.
Qed.

Lemma last_clf_Log_exit (uuid : UUID) (l : CLFEntry) (codes : list Z) (s2 : World) :
  last_clf (logs (Log_exit uuid l codes s2)) =
  Some (CLF_with_status_size l (last_code 200 codes) 0).
Proof.
  rewrite logs_Log_exit. apply last_clf_app_clf. by destruct (slow _).
Qed.

(** The recorder never changes its size field: the logged size is 0
    whatever the downstream handler writes. *)
Lemma Log_size_always_zero (next : Handler) (r : Request) (s s' : World) :
  run (Log next r) s = (Done tt, s') ->
  exists e, last_clf (logs s') = Some e /\ size e = 0.
Proof.
  destruct (Log_entry_total r s) as (r' & uuid & l & s1 & He & _).
  rewrite (run_Log next _ _ _ _ _ _ He).
  destruct (run (next r') s1) as [[[] | v] s2]; [| discriminate].
  intros [= <-]. eexists. split; [apply last_clf_Log_exit |]. by destruct l.
Qed.

(** A request with a non-empty "uuid" header is logged under the all-zero
    identifier. *)
Lemma Log_ident_of_supplied_uuid (next : Handler) (r : Request) (s s' : World) :
  Header_Get "uuid" (ReqHeader r) <> "" ->
  run (Log next r) s = (Done tt, s') ->
  exists e, last_clf (logs s') = Some e /\
            ident e = "00000000-0000-0000-0000-000000000000".
Proof.
  intros Hrid.
  destruct (Log_entry_total r s) as (r' & uuid & l & s1 & He & Hid & _ & _ & _ & Hz).
  rewrite (run_Log next _ _ _ _ _ _ He).
  destruct (run (next r') s1) as [[[] | v] s2]; [| discriminate].
  intros [= <-]. eexists. split; [apply last_clf_Log_exit |].
  destruct l; cbn in *. by rewrite Hid, (Hz Hrid).
Qed.

(** The "slow request" test fires from 200 microseconds on. *)
Lemma slow_threshold (took : Z) : slow took = true <-> 200000 <= took.
Proof.
  unfold slow. rewrite Z.leb_le.
  split; intros H.
  - destruct (Z_lt_le_dec took 200000) as [Hlt | ]; [| done].
    destruct (Z_lt_le_dec took 0) as [Hneg | Hpos].
    + pose proof (Z.quot_opp_l took 1000 ltac:(lia)).
      assert (0 <= Z.quot (- took) 1000) by (apply Z.quot_pos; lia). lia.
    + assert (Z.quot took 1000 < 200); [| lia].
      apply Z.quot_lt_upper_bound; lia.
  - apply Z.quot_le_lower_bound; lia.
Qed.

(** C10: when the downstream handler returns without having called
    [WriteHeader] on the writer it was given, [Log] returns and the
    access-log entry it printed carries status 200, the status the
    recorder starts with; the entry's status column prints as 200. *)
Theorem Log_reports_200_without_WriteHeader
    (next : Handler) (r r' : Request) (uuid : UUID) (l : CLFEntry) (s s1 s2 : World) :
  Log_entry r s = Some (r', uuid, l, s1) ->
  run (next r') s1 = (Done tt, s2) ->
  wh_codes (next r') s1 = [] ->
  exists (s' : World) (e : CLFEntry),
    run (Log next r) s = (Done tt, s') /\
    last_clf (logs s') = Some e /\
    status e = 200 /\
    CLF_status_column (status e) = Some 200.
Proof.
  intros He Hrun Hcodes.
  rewrite (run_Log next _ _ _ _ _ _ He), Hrun, Hcodes.
  eexists _, _. split; [reflexivity |].
  split; [apply last_clf_Log_exit |].
  by destruct l.
Qed.

Lemma Log_reports_200_without_WriteHeader_witness :
  exists (s' : World) (e : CLFEntry),
    run (Log (fun _ => call (Write "hello")) sample_request) sample_world = (Done tt, s') /\
    last_clf (logs s') = Some e /\
    status e = 200 /\
    CLF_status_column (status e) = Some 200.
Proof.
  eapply (Log_reports_200_without_WriteHeader (fun _ => call (Write "hello"))
            sample_request).
  - reflexivity.
  - reflexivity.
  - reflexivity.
Defined.

(** C7, on a handler that writes five bytes: the downstream handler writes
    "hello"; the client receives the five bytes with status 200, and the
    access-log entry reports status 200 and size 0. *)
Theorem Log_size_of_hello :
  exists (s' : World) (e : CLFEntry),
    run (Log (fun _ => call (Write "hello")) sample_request) sample_world = (Done tt, s') /\
    body (resp s') = "hello" /\
    sent_status (resp s') = Some 200 /\
    last_clf (logs s') = Some e /\
    status e = 200 /\
    size e = 0 /\
    size e <> Str.len "hello".
Proof. eexists _, _. repeat split; try reflexivity. discriminate. Qed.

(** C6, on a request that takes one millisecond: the clock advances by one
    millisecond between entry and exit, and the "slow request" line is
    printed although one millisecond does not exceed 200 milliseconds. *)
Theorem Log_slow_line_after_one_millisecond :
  exists (s' : World) (e : CLFEntry) (u : UUID),
    run (Log (fun _ => Ret tt) sample_request) sample_world = (Done tt, s') /\
    logs s' = [LogCLF e; LogSlow u (1 * Millisecond)] /\
    1 * Millisecond <= 200 * Millisecond.
Proof. eexists _, _, _. repeat split; try reflexivity. discriminate. Qed.

(** C4, on a request that brings its own identifier: the request supplies
    123e4567-e89b-42d3-a456-426614174000 in its "uuid" header; the
    access-log entry carries the all-zero identifier instead. *)
Theorem Log_ident_of_traced_request :
  exists (s' : World) (e : CLFEntry),
    Header_Get "uuid" (ReqHeader traced_request) = "123e4567-e89b-42d3-a456-426614174000" /\
    run (Log (fun _ => Ret tt) traced_request) sample_world = (Done tt, s') /\
    last_clf (logs s') = Some e /\
    ident e = "00000000-0000-0000-0000-000000000000" /\
    ident e <> Header_Get "uuid" (ReqHeader traced_request).
Proof. eexists _, _. repeat split; try reflexivity. discriminate. Qed.

(* ===================================================================== *)
(** ** AcceptHeaders *)
(* ===================================================================== *)

(** The list given to [AcceptHeaders] plays no part in its answer. *)
Lemma AcceptHeaders_ignores_list (m m' : list string) (h : Handler) (r : Request) :
  AcceptHeaders m h r = AcceptHeaders m' h r.
Proof. reflexivity. Qed.

(** What [AcceptHeaders] does with a URL under the length limit. *)
Lemma AcceptHeaders_short_URL (m : list string) (h : Handler) (r : Request) :
  Str.len (URL_String (url r)) < maxURILen ->
  AcceptHeaders m h r =
    if bool_decide (Method r ∈ DefaultAllowedMethods)
    then h r
    else http_Error "Method Not Allowed" 405.
Proof.
  intros Hlen. unfold AcceptHeaders.
  destruct (Z.leb_spec maxURILen (Str.len (URL_String (url r)))); [lia |].
  unfold DefaultAllowedMethods. cbn [method_gate].
  destruct (String.eqb_spec (Method r) "GET") as [-> | H1]; [done |].
  destruct (String.eqb_spec (Method r) "HEAD") as [-> | H2]; [done |].
  destruct (String.eqb_spec (Method r) "OPTIONS") as [-> | H3]; [done |].
  rewrite bool_decide_eq_false_2; [reflexivity |].
  rewrite !elem_of_cons, elem_of_nil. intros [? | [? | [? | []]]]; congruence.
Qed.

(** C5, on the allow-list {POST}: a POST request under the length limit is
    answered 405 without the downstream handler being called, and a GET
    request, which is not in the list, is handed to the downstream
    handler. *)
Theorem AcceptHeaders_POST_only :
  Str.len (URL_String (url post_request)) < maxURILen /\
  (Method post_request ∈ ["POST"]) /\
  (forall h : Handler,
     AcceptHeaders ["POST"] h post_request = http_Error "Method Not Allowed" 405) /\
  (forall h : Handler,
     sent_status (resp (run (AcceptHeaders ["POST"] h post_request) sample_world).2)
       = Some 405) /\
  (Method get_request ∉ ["POST"]) /\
  (forall h : Handler, AcceptHeaders ["POST"] h get_request = h get_request).
Proof.
  split; [reflexivity |].
  split; [by apply list_elem_of_singleton |].
  split; [reflexivity |].
  split; [reflexivity |].
  split; [| reflexivity].
  rewrite list_elem_of_singleton. discriminate.
Qed.

(* ===================================================================== *)
(** ** Index *)
(* ===================================================================== *)

(** Under the ACME challenge prefix, a path whose last element is neither
    robots.txt nor security.txt gets the 404 and nothing else. *)
Lemma Index_acme_other (r : Request) (s : World) :
  Str.HasPrefix (Path (url r)) "/.well-known/acme-challenge/" = true ->
  Str.path_Base (Path (url r)) <> "robots.txt" ->
  Str.path_Base (Path (url r)) <> "security.txt" ->
  run (Index r) s = (Done tt, with_resp (resp_Error "404 page not found" 404) s).
Proof.
  intros Hpre H1 H2. unfold Index, serveStaticFS. rewrite Hpre.
  destruct (String.eqb_spec (Str.path_Base (Path (url r))) "robots.txt"); [done |].
  destruct (String.eqb_spec (Str.path_Base (Path (url r))) "security.txt"); [done |].
  rewrite run_bind. unfold http_NotFound. rewrite run_http_Error. reflexivity.
Qed.

(** C9, on /.well-known/acme-challenge/robots.txt, a path under the ACME
    challenge prefix: [Index] answers 404 and then goes on to serve the
    file.  When
    the file tree holds the file, it is opened and its bytes follow the 404
    text in the body; when it does not, the file is looked up all the same
    and the file server adds its own 404 text. *)
Theorem Index_acme_robots_txt :
  Str.HasPrefix (Path (url acme_request)) "/.well-known/acme-challenge/" = true /\
  (exists s' : World,
     run (Index acme_request) acme_world = (Done tt, s') /\
     sent_status (resp s') = Some 404 /\
     opened s' = ["/.well-known/acme-challenge/robots.txt"] /\
     body (resp s') = "404 page not found" +:+ Str.newline +:+ "User-agent: *") /\
  (exists s' : World,
     run (Index acme_request) sample_world = (Done tt, s') /\
     sent_status (resp s') = Some 404 /\
     opened s' = ["/.well-known/acme-challenge/robots.txt"] /\
     body (resp s') = "404 page not found" +:+ Str.newline +:+
                      "404 page not found" +:+ Str.newline).
Proof.
  split; [vm_compute; reflexivity |]. split.
  - exists (run (Index acme_request) acme_world).2.
    vm_compute. repeat split.
  - exists (run (Index acme_request) sample_world).2.
    vm_compute. repeat split.
Qed.

(* ===================================================================== *)
(** ** selfSignedX509 *)
(* ===================================================================== *)

Lemma clock_step_GenerateKey (s : World) :
  clock (step GenerateKey s).2 = clock s /\ ticks (step GenerateKey s).2 = ticks s.
Proof. simpl. by destruct (keygen s (entropy s)) as [[? ?] |]. Qed.

Lemma clock_step_ReadFull (n : nat) (s : World) :
  clock (step (ReadFull n) s).2 = clock s /\ ticks (step (ReadFull n) s).2 = ticks s.
Proof. simpl. by destruct (decide _). Qed.

Lemma run_selfSignedX509 (dirCache : string) (s s' : World) (cfg : TLSConfig) :
  run (selfSignedX509 dirCache) s = (Done (inl cfg), s') ->
  exists (der : DER),
    CertificateDER cfg = [der] /\
    NotBefore (tbs der) = clock s (ticks s) - Minute /\
    NotAfter (tbs der) = clock s (S (ticks s)) + 7 * 24 * Hour.
Proof.
  unfold selfSignedX509. rewrite run_bind, run_call.
  destruct (clock_step_GenerateKey s) as [Hc0 Ht0].
  destruct (step GenerateKey s) as [[priv |] s0]; cbn [fst snd] in *;
    [| cbn [run]; discriminate].
  rewrite run_bind. unfold rand_Int_128. rewrite run_bind, run_call.
  destruct (clock_step_ReadFull 16 s0) as [Hc1 Ht1].
  destruct (step (ReadFull 16) s0) as [[bs ok] s1]; cbn [fst snd] in *.
  destruct ok; cbn [run]; [| discriminate].
  rewrite run_bind, run_call. cbn [step fst snd].
  rewrite run_bind, run_call. cbn [step fst snd clock ticks with_ticks].
  rewrite run_bind, run_call. cbn [step fst snd clock ticks with_ticks sign].
  destruct (sign s1 _ priv) as [sg |]; cbn [fmap option_fmap option_map run];
    [| discriminate].
  intros [= <- <-]. eexists. split; [reflexivity |].
  cbn [tbs NotBefore NotAfter]. unfold Time_Add.
  rewrite Hc1, Hc0, Ht1, Ht0. split; [lia | reflexivity].
Qed.

(** C8, the validity window: a certificate that [selfSignedX509] produces
    has [NotBefore] one minute before the first clock reading and [NotAfter]
    seven days after the second clock reading.  With a clock that does not
    run backwards, [NotBefore] is not after either reading and [NotAfter]
    is at least [NotBefore] plus seven days and one minute, with equality
    exactly when the two readings coincide. *)
Theorem selfSignedX509_validity
    (dirCache : string) (s s' : World) (cfg : TLSConfig) :
  run (selfSignedX509 dirCache) s = (Done (inl cfg), s') ->
  exists (der : DER),
    CertificateDER cfg = [der] /\
    let now1 := clock s (ticks s) in
    let now2 := clock s (S (ticks s)) in
    NotBefore (tbs der) = now1 - Minute /\
    NotAfter (tbs der) = now2 + 7 * 24 * Hour /\
    NotAfter (tbs der) = NotBefore (tbs der) + 7 * 24 * Hour + Minute + (now2 - now1) /\
    (now1 <= now2 ->
       NotBefore (tbs der) <= now1 /\
       NotBefore (tbs der) <= now2 /\
       NotBefore (tbs der) + 7 * 24 * Hour + Minute <= NotAfter (tbs der)).
Proof.
  intros Hrun. destruct (run_selfSignedX509 _ _ _ _ Hrun) as (der & Hder & Hnb & Hna).
  exists der. split; [exact Hder |]. cbn zeta.
  rewrite Hnb, Hna. unfold Hour, Minute, Second, Millisecond. repeat split; lia.
Qed.

Lemma selfSignedX509_validity_witness :
  exists (cfg : TLSConfig) (s' : World) (der : DER),
    run (selfSignedX509 "/etc/ssl/private") sample_world = (Done (inl cfg), s') /\
    CertificateDER cfg = [der] /\
    NotBefore (tbs der) = - Minute /\
    NotAfter (tbs der) = Millisecond + 7 * 24 * Hour.
Proof.
  eexists _, _.
  destruct (selfSignedX509_validity "/etc/ssl/private" sample_world _ _ eq_refl)
    as (der & Hder & Hnb & Hna & _).
  exists der. split; [reflexivity |]. split; [exact Hder |].
  split; [exact Hnb | exact Hna].
Defined.

(** C8 with [NotAfter] at [NotBefore] plus seven days does not hold: the
    certificate made in [sample_world], whose clock reads 0 and then one
    millisecond, has [NotAfter] different from [NotBefore] plus seven
    days. *)
Lemma selfSignedX509_not_seven_days :
  ~ (forall (dirCache : string) (s s' : World) (cfg : TLSConfig) (der : DER),
       run (selfSignedX509 dirCache) s = (Done (inl cfg), s') ->
       der ∈ CertificateDER cfg ->
       NotBefore (tbs der) = clock s (ticks s) - Minute /\
       NotAfter (tbs der) = NotBefore (tbs der) + 7 * 24 * Hour).
Proof.
  intros H.
  destruct (run (selfSignedX509 "/etc/ssl/private") sample_world)
    as [[[cfg | e] | v] s'] eqn:Hrun;
    [| vm_compute in Hrun; discriminate | vm_compute in Hrun; discriminate].
  destruct (run_selfSignedX509 _ _ _ _ Hrun) as (der & Hder & Hnb & Hna).
  destruct (H _ _ _ _ der Hrun) as [_ Hna'].
  { rewrite Hder. by apply list_elem_of_singleton. }
  rewrite Hna, Hnb in Hna'. vm_compute in Hna'. discriminate.
Qed.

(* ===================================================================== *)
(** ** More on Apply *)
(* ===================================================================== *)

Lemma nest_app (a b : list Middleware) (h : Handler) :
  nest (a ++ b) h = nest a (nest b h).
Proof. unfold nest. by rewrite foldr_app. Qed.

(** X1: [Apply] with no middleware gives the handler back, [Apply] with
    one middleware is that middleware, and applying a concatenation is
    applying the second list first and the first list around it: a chain
    can be built in pieces. *)
Theorem Apply_composes :
  (forall h : Handler, Apply [] h = h) /\
  (forall (m : Middleware) (h : Handler), Apply [m] h = m h) /\
  (forall (a b : list Middleware) (h : Handler),
     Apply (a ++ b) h = Apply a (Apply b h)).
Proof.
  split; [reflexivity |]. split; [reflexivity |].
  intros a b h. rewrite !Apply_nest. apply nest_app.
Qed.

(* ===================================================================== *)
(** ** More on correlation identifiers *)
(* ===================================================================== *)

Lemma shiftr_land_ones_lor (x : Z) (n : Z) (hi : Z) :
  0 <= n ->
  Z.shiftr (Z.lor (Z.land x (Z.ones n)) hi) n = Z.shiftr hi n.
Proof.
  intros Hn. rewrite Z.shiftr_lor, Z.land_ones by done.
  rewrite (Z.shiftr_div_pow2 (x mod 2 ^ n)) by done.
  rewrite Z.div_small; [apply Z.lor_0_l |].
  apply Z.mod_pos_bound. by apply Z.pow_pos_nonneg.
Qed.

Lemma version_nibble (x : Z) : Z.shiftr (Z.lor (Z.land x 0x0f) 0x40) 4 = 4.
Proof. apply (shiftr_land_ones_lor x 4 0x40). lia. Qed.

Lemma variant_bits (x : Z) : Z.shiftr (Z.lor (Z.land x 0x3f) 0x80) 6 = 2.
Proof. apply (shiftr_land_ones_lor x 6 0x80). lia. Qed.

Lemma byte_land_lor (x n hi : Z) :
  0 <= n <= 8 -> 0 <= hi < 256 -> 0 <= Z.lor (Z.land x (Z.ones n)) hi < 256.
Proof.
  intros Hn Hhi. rewrite Z.land_ones by lia.
  assert (Hm : 0 <= x mod 2 ^ n < 2 ^ n) by (apply Z.mod_pos_bound; lia).
  assert (Hp : 2 ^ n <= 2 ^ 8) by (apply Z.pow_le_mono_r; lia).
  change (2 ^ 8) with 256 in Hp.
  assert (H0 : 0 <= Z.lor (x mod 2 ^ n) hi) by (apply Z.lor_nonneg; lia).
  split; [done |].
  destruct (Z.eq_dec (Z.lor (x mod 2 ^ n) hi) 0) as [-> | Hne]; [lia |].
  apply Z.log2_lt_cancel. rewrite Z.log2_lor by lia.
  change (Z.log2 256) with 8.
  assert (Z.log2 (x mod 2 ^ n) < 8).
  { destruct (Z.eq_dec (x mod 2 ^ n) 0) as [-> | ?]; [done |].
    apply Z.log2_lt_pow2; lia. }
  assert (Z.log2 hi < 8).
  { destruct (Z.eq_dec hi 0) as [-> | ?]; [done |].
    apply Z.log2_lt_pow2; lia. }
  lia.
Qed.

(** X2: with sixteen bytes of entropy at hand, [NewV4UUID] succeeds,
    consumes exactly those sixteen bytes and returns sixteen bytes whose
    byte 6 has high nibble 4 (the version) and whose byte 8 has top bits 10
    (the variant); every other byte is the entropy byte read for it, and
    bytes stay bytes. *)
Theorem NewV4UUID_version_and_variant (s : World) :
  (16 <= length (entropy s))%nat ->
  exists u : UUID,
    run NewV4UUID s = (Done (u, true), with_entropy (drop 16 (entropy s)) s) /\
    length u = 16%nat /\
    Z.shiftr (default 0 (u !! 6%nat)) 4 = 4 /\
    Z.shiftr (default 0 (u !! 8%nat)) 6 = 2 /\
    (forall i : nat, i <> 6%nat -> i <> 8%nat -> u !! i = take 16 (entropy s) !! i) /\
    (Forall (fun b => 0 <= b < 256) (take 16 (entropy s)) ->
     Forall (fun b => 0 <= b < 256) u).
Proof.
  intros Hlen. unfold NewV4UUID. rewrite run_bind, run_call. cbn [step].
  destruct (decide (16 ≤ length (entropy s))%nat) as [_ | ?]; [| lia].
  cbn [fst snd negb run].
  set (e := take 16 (entropy s)).
  assert (He : length e = 16%nat) by (unfold e; rewrite length_take; lia).
  eexists. split; [reflexivity |]. unfold UUID.
  split; [by rewrite !length_insert |].
  split.
  { rewrite (list_lookup_insert_ne _ 8 6) by done.
    rewrite list_lookup_insert_eq by lia. apply version_nibble. }
  split.
  { rewrite (list_lookup_insert_eq _ 8) by (rewrite length_insert; lia).
    apply variant_bits. }
  split.
  { intros i H6 H8. by rewrite !list_lookup_insert_ne. }
  intros Hb.
  apply Forall_insert; [apply Forall_insert; [done |] |].
  - apply (byte_land_lor _ 4 0x40); lia.
  - apply (byte_land_lor _ 6 0x80); lia.
Qed.

Lemma NewV4UUID_version_and_variant_witness :
  exists u : UUID,
    run NewV4UUID sample_world =
      (Done (u, true), with_entropy (drop 16 (entropy sample_world)) sample_world) /\
    Z.shiftr (default 0 (u !! 6%nat)) 4 = 4 /\
    Z.shiftr (default 0 (u !! 8%nat)) 6 = 2.
Proof.
  destruct (NewV4UUID_version_and_variant sample_world) as (u & Hrun & _ & H6 & H8 & _).
  { vm_compute. lia. }
  by exists u.
Defined.

Lemma code_of_code (z : Z) : 0 <= z < 256 -> Str.code (Str.of_code z) = z.
Proof.
  intros Hz. unfold Str.code, Str.of_code.
  rewrite Ascii.N_ascii_embedding by lia. lia.
Qed.

Lemma code_hexdigit (x : Z) :
  0 <= x < 16 -> Str.code (Str.hexdigit x) = if x <? 10 then 48 + x else 87 + x.
Proof.
  intros Hx. unfold Str.hexdigit.
  destruct (x <? 10); apply code_of_code; lia.
Qed.

Lemma hexdigit_inj (x y : Z) :
  0 <= x < 16 -> 0 <= y < 16 -> Str.hexdigit x = Str.hexdigit y -> x = y.
Proof.
  intros Hx Hy Heq. apply (f_equal Str.code) in Heq.
  rewrite !code_hexdigit in Heq by done.
  destruct (Z.ltb_spec x 10), (Z.ltb_spec y 10); lia.
Qed.

Lemma nibbles_of_byte (b : Z) :
  0 <= b < 256 ->
  0 <= Z.shiftr b 4 < 16 /\ 0 <= Z.land b 15 < 16 /\
  b = 16 * Z.shiftr b 4 + Z.land b 15.
Proof.
  intros Hb. rewrite Z.shiftr_div_pow2 by lia.
  change 15 with (Z.ones 4). rewrite Z.land_ones by lia.
  change (2 ^ 4) with 16.
  pose proof (Z.div_mod b 16 ltac:(lia)).
  pose proof (Z.mod_pos_bound b 16 ltac:(lia)).
  assert (b / 16 < 16) by (apply Z.div_lt_upper_bound; lia).
  assert (0 <= b / 16) by (apply Z.div_pos; lia).
  lia.
Qed.

Lemma hex_byte_inj (a b : Z) :
  0 <= a < 256 -> 0 <= b < 256 ->
  Str.hexdigit (Z.shiftr a 4) = Str.hexdigit (Z.shiftr b 4) ->
  Str.hexdigit (Z.land a 15) = Str.hexdigit (Z.land b 15) ->
  a = b.
Proof.
  intros Ha Hb Hhi Hlo.
  destruct (nibbles_of_byte a Ha) as (? & ? & ->).
  destruct (nibbles_of_byte b Hb) as (? & ? & ->).
  apply hexdigit_inj in Hhi; [| done | done].
  apply hexdigit_inj in Hlo; [| done | done].
  by rewrite Hhi, Hlo.
Qed.

Ltac sixteen_bytes u :=
  do 16 (destruct u as [| ? u]; [discriminate |]);
  destruct u; [| discriminate].

(** X3: the string of a sixteen-byte identifier has 36 characters, with
    dashes at offsets 8, 13, 18 and 23; offset 14 shows the high nibble of
    byte 6 and offset 19 the high nibble of byte 8, so an identifier with
    version nibble 4 and variant bits 10 prints a 4 at offset 14 and one of
    8, 9, a, b at offset 19. *)
Theorem UUID_String_shape (u : UUID) :
  length u = 16%nat ->
  String.length (UUID_String u) = 36%nat /\
  String.get 8 (UUID_String u) = Some "-"%char /\
  String.get 13 (UUID_String u) = Some "-"%char /\
  String.get 18 (UUID_String u) = Some "-"%char /\
  String.get 23 (UUID_String u) = Some "-"%char /\
  (Z.shiftr (default 0 (u !! 6%nat)) 4 = 4 ->
   String.get 14 (UUID_String u) = Some "4"%char) /\
  (Z.shiftr (default 0 (u !! 8%nat)) 6 = 2 -> 0 <= default 0 (u !! 8%nat) < 256 ->
   String.get 19 (UUID_String u) ∈
     [Some "8"%char; Some "9"%char; Some "a"%char; Some "b"%char]).
Proof.
  intros Hlen. unfold UUID in *. sixteen_bytes u.
  repeat (split; [reflexivity |]).
  split.
  - cbn [lookup list_lookup default from_option id]. intros H6.
    change (String.get 14 _) with (Some (Str.hexdigit (Z.shiftr z5 4))).
    by rewrite H6.
  - cbn [lookup list_lookup default from_option id]. intros H8 Hb.
    change (String.get 19 _) with (Some (Str.hexdigit (Z.shiftr z7 4))).
    rewrite Z.shiftr_div_pow2 in H8 |- * by lia.
    change (2 ^ 6) with 64 in H8. change (2 ^ 4) with 16.
    assert (128 <= z7 < 192).
    { pose proof (Z.div_mod z7 64 ltac:(lia)).
      pose proof (Z.mod_pos_bound z7 64 ltac:(lia)). lia. }
    assert (Hq : z7 / 16 = 8 \/ z7 / 16 = 9 \/ z7 / 16 = 10 \/ z7 / 16 = 11).
    { assert (8 <= z7 / 16) by (apply Z.div_le_lower_bound; lia).
      assert (z7 / 16 < 12) by (apply Z.div_lt_upper_bound; lia). lia. }
    rewrite !elem_of_cons.
    destruct Hq as [-> | [-> | [-> | ->]]];
      [left | right; left | right; right; left | right; right; right; left];
      reflexivity.
Qed.

Lemma UUID_String_shape_witness :
  String.length (UUID_String UUID_zero) = 36%nat /\
  String.get 8 (UUID_String UUID_zero) = Some "-"%char.
Proof.
  destruct (UUID_String_shape UUID_zero eq_refl) as (H1 & H2 & _).
  by split.
Defined.

(** X4: on sixteen-byte identifiers whose entries are bytes, [UUID.String]
    is injective: two identifiers that print alike are equal. *)
Theorem UUID_String_injective (u v : UUID) :
  length u = 16%nat -> length v = 16%nat ->
  Forall (fun b => 0 <= b < 256) u -> Forall (fun b => 0 <= b < 256) v ->
  UUID_String u = UUID_String v -> u = v.
Proof.
  intros Hu Hv Fu Fv Heq. unfold UUID in *. sixteen_bytes u. sixteen_bytes v.
  cbv -[Str.hexdigit Z.shiftr Z.land] in Heq.
  repeat match goal with
         | H : Forall _ (_ :: _) |- _ => apply Forall_cons in H as [? H]
         end.
  injection Heq as Heq;
    repeat match goal with
           | H : Str.hexdigit _ = Str.hexdigit _ |- _ => revert H
           end.
  intros.
  repeat match goal with
         | Hhi : Str.hexdigit (Z.shiftr ?a 4) = Str.hexdigit (Z.shiftr ?b 4),
           Hlo : Str.hexdigit (Z.land ?a 15) = Str.hexdigit (Z.land ?b 15) |- _ =>
             assert (a = b) by (apply hex_byte_inj; assumption);
             clear Hhi Hlo; subst b
         end.
  reflexivity.
Qed.

Lemma UUID_String_injective_witness : UUID_zero = replicate 16 0.
Proof.
  apply UUID_String_injective; try reflexivity;
    repeat constructor; lia.
Defined.

(* ===================================================================== *)
(** ** More on the request context and Log *)
(* ===================================================================== *)

Lemma ReadFull_length (n : nat) (s : World) :
  length (step (ReadFull n) s).1.1 = n.
Proof.
  simpl. destruct (decide _); simpl.
  - rewrite length_take. lia.
  - rewrite length_app, length_replicate. lia.
Qed.

Lemma run_NewV4UUID_full (s : World) :
  exists u ok s',
    run NewV4UUID s = (Done (u, ok), s') /\
    length u = 16%nat /\
    resp s' = resp s /\
    logs s' = logs s /\
    clock s' = clock s /\ ticks s' = ticks s.
Proof.
  unfold NewV4UUID. rewrite run_bind, run_call.
  pose proof (ReadFull_length 16 s) as Hl.
  assert (Hs : resp (step (ReadFull 16) s).2 = resp s /\
               logs (step (ReadFull 16) s).2 = logs s /\
               clock (step (ReadFull 16) s).2 = clock s /\
               ticks (step (ReadFull 16) s).2 = ticks s).
  { simpl. by destruct (decide _). }
  destruct (step (ReadFull 16) s) as [[u ok] s']. cbn [fst snd] in *.
  destruct ok; cbn [negb run]; eexists _, _, _; (split; [reflexivity |]);
    unfold UUID; rewrite ?length_insert; by split.
Qed.

Lemma run_NewRequestContext_resp (r : Request) (s : World) :
  exists (uuid : UUID) (s0 : World),
    run (NewRequestContext r) s =
      (Done (Context_WithValue (ctx r) "uuid" (CtxUUID uuid)), s0) /\
    resp s0 = resp s.
Proof.
  unfold NewRequestContext.
  destruct (String.eqb (Header_Get "uuid" (ReqHeader r)) "").
  - rewrite run_bind, run_bind. unfold NewV4UUIDRandom.
    destruct (run_NewV4UUID_full s) as (u & ok & s' & -> & _ & Hresp & _).
    rewrite run_bind.
    destruct ok; cbn [negb run].
    + by eexists _, _.
    + rewrite run_call. cbn [step fst snd run]. by eexists _, _.
  - cbn [run bind]. by eexists _, _.
Qed.

(** X5: [NewRequestContext] always returns a context that binds "uuid" to
    a sixteen-byte identifier and leaves every other key as it was in the
    request's context; it does not touch the response, and the only line
    it may log is the UUID error. *)
Theorem NewRequestContext_binds_uuid (r : Request) (s : World) :
  exists (c : Context) (uuid : UUID) (s0 : World),
    run (NewRequestContext r) s = (Done c, s0) /\
    Context_Value c "uuid" = Some (CtxUUID uuid) /\
    length uuid = 16%nat /\
    (forall k : string, k <> "uuid" -> Context_Value c k = Context_Value (ctx r) k) /\
    resp s0 = resp s /\
    (logs s0 = logs s \/ logs s0 = logs s ++ [LogUUIDError]).
Proof.
  unfold NewRequestContext.
  destruct (String.eqb_spec (Header_Get "uuid" (ReqHeader r)) "") as [He | He].
  - rewrite run_bind, run_bind. unfold NewV4UUIDRandom.
    destruct (run_NewV4UUID_full s) as (u & ok & s' & -> & Hlen & Hresp & Hlogs & _).
    rewrite run_bind.
    destruct ok; cbn [negb run].
    + eexists _, u, s'. split; [reflexivity |].
      split; [reflexivity |]. split; [done |].
      split; [| by auto].
      intros k Hk. cbn [Context_Value Context_WithValue].
        destruct (String.eqb_spec "uuid" k); [congruence | done].
    + rewrite run_call. cbn [step fst snd run].
      eexists _, u, _. split; [reflexivity |].
      split; [reflexivity |]. split; [done |].
      split; [| split].
      * intros k Hk. cbn [Context_Value Context_WithValue].
        destruct (String.eqb_spec "uuid" k); [congruence | done].
      * exact Hresp.
      * right. cbn. by rewrite Hlogs.
  - cbn [run bind]. eexists _, UUID_zero, s. split; [reflexivity |].
    split; [reflexivity |]. split; [reflexivity |].
    split; [| by auto].
    intros k Hk. cbn [Context_Value Context_WithValue].
        destruct (String.eqb_spec "uuid" k); [congruence | done].
Qed.

(** X6: [Log] is transparent to the client.  The downstream handler gets
    the request with only its context replaced and starts with the
    response as [Log] found it; [Log] ends as the downstream handler ends
    (return, or panic with the same value) and leaves the response exactly
    as the downstream handler left it. *)
Theorem Log_is_transparent (next : Handler) (r : Request) (s : World) :
  exists (r' : Request) (uuid : UUID) (l : CLFEntry) (s1 : World),
    Log_entry r s = Some (r', uuid, l, s1) /\
    r' = Request_WithContext r (ctx r') /\
    Context_Value (ctx r') "uuid" = Some (CtxUUID uuid) /\
    resp s1 = resp s /\
    (run (Log next r) s).1 = (run (next r') s1).1 /\
    resp (run (Log next r) s).2 = resp (run (next r') s1).2.
Proof.
  destruct (run_NewRequestContext_resp r s) as (uuid & s0 & Hrun & Hresp).
  set (c := Context_WithValue (ctx r) "uuid" (CtxUUID uuid)) in *.
  assert (Hval : Context_Value c "uuid" = Some (CtxUUID uuid)) by reflexivity.
  assert (He : exists l s1,
             Log_entry r s = Some (Request_WithContext r c, uuid, l, s1) /\
             resp s1 = resp s0).
  { unfold Log_entry. rewrite Hrun, Hval.
    unfold NewCLFEntry. rewrite run_bind, run_call. cbn [step fst snd run].
    eexists _, _. split; reflexivity. }
  destruct He as (l & s1 & He & Hresp1).
  exists (Request_WithContext r c), uuid, l, s1. split; [exact He |].
  split; [reflexivity |]. split; [exact Hval |].
  split; [by rewrite Hresp1 |].
  rewrite (run_Log next _ _ _ _ _ _ He).
  destruct (run (next (Request_WithContext r c)) s1) as [[[] | v] s2]; cbn [fst snd].
  - split; [reflexivity | apply resp_Log_exit].
  - by split.
Qed.

Lemma Log_entry_fields (r r' : Request) (uuid : UUID) (l : CLFEntry) (s s1 : World) :
  Log_entry r s = Some (r', uuid, l, s1) ->
  r' = Request_WithContext r (ctx r') /\
  Context_Value (ctx r') "uuid" = Some (CtxUUID uuid) /\
  ident l = UUID_String uuid /\
  method l = Method r /\ path l = Path (url r) /\ proto l = Proto r /\
  status l = 0 /\ size l = 0 /\
  ua l <> "" /\ referrer l <> "".
Proof.
  unfold Log_entry.
  destruct (run (NewRequestContext r) s) as [[c | v] s0]; [| discriminate].
  destruct (Context_Value c "uuid") as [[u | o] |] eqn:Hval; try discriminate.
  unfold NewCLFEntry. rewrite run_bind, run_call. cbn [step fst snd run].
  intros [= <- <- <- <-]. cbn.
  repeat split; try done.
  - unfold nonempty. by destruct (String.eqb_spec (UserAgent r) "").
  - unfold nonempty. by destruct (String.eqb_spec (Referer r) "").
Qed.

Lemma slow_iff (took : Z) : slow took = bool_decide (200000 <= took).
Proof.
  destruct (slow took) eqn:Hs.
  - apply slow_threshold in Hs. by rewrite bool_decide_eq_true_2.
  - rewrite bool_decide_eq_false_2; [done |].
    intros H. apply slow_threshold in H. congruence.
Qed.

(** X7: when the downstream handler returns, [Log] returns after printing
    one access-log entry, followed by the "slow request" line exactly when
    the time from entry to exit is at least 200000 nanoseconds.  The entry
    carries the request's method, path and protocol, the identifier of the
    request context, size 0, and as status the code of the last
    [WriteHeader] call the downstream handler made, 200 when it made
    none. *)
Theorem Log_access_log_line
    (next : Handler) (r r' : Request) (uuid : UUID) (l : CLFEntry) (s s1 s2 : World) :
  Log_entry r s = Some (r', uuid, l, s1) ->
  run (next r') s1 = (Done tt, s2) ->
  exists (s' : World) (e : CLFEntry),
    let took := Time_Sub (clock s2 (ticks s2)) (ts l) in
    run (Log next r) s = (Done tt, s') /\
    logs s' = logs s2 ++ LogCLF e ::
                (if bool_decide (200000 <= took) then [LogSlow uuid took] else []) /\
    status e = last_code 200 (wh_codes (next r') s1) /\
    size e = 0 /\
    ident e = UUID_String uuid /\
    method e = Method r /\ path e = Path (url r) /\ proto e = Proto r /\
    ts e = ts l.
Proof.
  intros He Hrun.
  destruct (Log_entry_fields _ _ _ _ _ _ He)
    as (_ & _ & Hid & Hm & Hp & Hpr & _).
  rewrite (run_Log next _ _ _ _ _ _ He), Hrun.
  eexists _, _. cbn zeta. split; [reflexivity |].
  rewrite logs_Log_exit, slow_iff.
  split; [reflexivity |]. by destruct l.
Qed.

Lemma Log_access_log_line_witness :
  exists (s' : World) (e : CLFEntry),
    run (Log (fun _ => call (WriteHeader 404);; call (WriteHeader 500)) sample_request)
        sample_world = (Done tt, s') /\
    sent_status (resp s') = Some 404 /\
    last_clf (logs s') = Some e /\
    status e = 500.
Proof.
  destruct (Log_access_log_line
              (fun _ => call (WriteHeader 404);; call (WriteHeader 500))
              sample_request _ _ _ sample_world _ _ eq_refl eq_refl)
    as (s' & e & Hrun & Hlogs & Hst & _).
  exists s', e. split; [exact Hrun |].
  split.
  { injection Hrun as <-. reflexivity. }
  split; [| exact Hst].
  rewrite Hlogs. apply last_clf_app_clf. by destruct (bool_decide _).
Defined.

(** X8: when the downstream handler panics, [Log] panics with the same
    value and the world is left as the downstream handler left it: no
    access-log entry is printed for the request and the clock is not read
    again. *)
Theorem Log_passes_panic_without_entry
    (next : Handler) (r r' : Request) (uuid : UUID) (l : CLFEntry)
    (s s1 s2 : World) (v : PanicVal) :
  Log_entry r s = Some (r', uuid, l, s1) ->
  run (next r') s1 = (Panicked v, s2) ->
  run (Log next r) s = (Panicked v, s2).
Proof.
  intros He Hrun. by rewrite (run_Log next _ _ _ _ _ _ He), Hrun.
Qed.

Lemma Log_passes_panic_without_entry_witness :
  exists s2 : World,
    run (Log (fun _ => Panic "boom") sample_request) sample_world = (Panicked "boom", s2) /\
    logs s2 = [].
Proof.
  eexists. split.
  - eapply (Log_passes_panic_without_entry (fun _ => Panic "boom") sample_request);
      reflexivity.
  - reflexivity.
Defined.

(* ===================================================================== *)
(** ** Default: Log around Recover *)
(* ===================================================================== *)

Lemma wh_codes_defer_recover (p : M unit) (h : PanicVal -> M unit) (s : World) :
  wh_codes (defer_recover p h) s =
  wh_codes p s ++
  match run p s with
  | (Done _, _) => []
  | (Panicked v, s') => wh_codes (h v) s'
  end.
Proof.
  revert s. induction p as [a | v | X e k IH]; intros s; simpl; try reflexivity.
  destruct (step e s) as [x s']. by rewrite IH, app_assoc.
Qed.

Lemma last_code_snoc (d c : Z) (codes : list Z) : last_code d (codes ++ [c]) = c.
Proof. unfold last_code. by rewrite foldl_app. Qed.

Lemma Default_unfold (h : Handler) : Default h = Log (Recover h).
Proof. reflexivity. Qed.

(** X9: [Default], that is [Log] around [Recover], answers every request
    by returning, and prints an access-log entry for it whatever the base
    handler does.  When the base handler panics, the entry reports status
    500, the panic line with the request's context is in the log before
    it, and the client sees status 500 unless the base handler had already
    sent a status. *)
Theorem Default_logs_every_request (h : Handler) (r : Request) (s : World) :
  exists (s' : World) (e : CLFEntry),
    run (Default h r) s = (Done tt, s') /\
    last_clf (logs s') = Some e /\
    forall (r' : Request) (uuid : UUID) (l : CLFEntry) (s1 s2 : World) (v : PanicVal),
      Log_entry r s = Some (r', uuid, l, s1) ->
      run (h r') s1 = (Panicked v, s2) ->
      status e = 500 /\
      LogPanic v (ctx r') ∈ logs s' /\
      (sent (resp s2) = None -> sent_status (resp s') = Some 500).
Proof.
  rewrite Default_unfold.
  destruct (Log_entry_total r s) as (r' & uuid & l & s1 & He & _).
  rewrite (run_Log _ _ _ _ _ _ _ He).
  destruct (Recover_returns h r' s1) as [s3 Hrec]. rewrite Hrec.
  eexists _, _. split; [reflexivity |]. split; [apply last_clf_Log_exit |].
  intros r'' uuid' l' s1' s2 v He' Hpanic.
  rewrite He in He'. injection He' as <- <- <- <-.
  rewrite run_Recover, Hpanic in Hrec. injection Hrec as <-.
  split; [| split].
  - destruct l; cbn [status CLF_with_status_size].
    unfold Recover. rewrite wh_codes_defer_recover, Hpanic.
    change (last_code 200 (wh_codes (h r') s1 ++ [500]) = 500).
    apply last_code_snoc.
  - rewrite logs_Log_exit. cbn [logs with_stdout add_logs with_logs with_resp].
    rewrite !elem_of_app, list_elem_of_singleton. auto.
  - intros Hs. rewrite resp_Log_exit. cbn [resp with_stdout add_logs with_logs with_resp].
    unfold sent_status, resp_Error. autorewrite with resp. by rewrite Hs.
Qed.

Lemma Default_logs_every_request_witness :
  exists (s' : World) (e : CLFEntry),
    run (Default (fun _ => Panic "boom") sample_request) sample_world = (Done tt, s') /\
    last_clf (logs s') = Some e /\
    status e = 500 /\
    sent_status (resp s') = Some 500.
Proof.
  destruct (Default_logs_every_request (fun _ => Panic "boom") sample_request sample_world)
    as (s' & e & Hrun & Hlast & Hpanic).
  destruct (Hpanic _ _ _ _ _ _ eq_refl eq_refl) as (Hst & _ & Hsent).
  exists s', e. repeat split; try done. by apply Hsent.
Defined.

(* ===================================================================== *)
(** ** More on SecureHeaders and the method gate *)
(* ===================================================================== *)

Lemma lookup_with_security_headers (hd : Header) (k : string) :
  with_security_headers hd !! k =
  match security_header_value k with
  | Some v => Some [v]
  | None => hd !! k
  end.
Proof.
  unfold with_security_headers, security_header_value, Header_Set.
  change (Str.CanonicalMIMEHeaderKey "Referrer-Policy") with "Referrer-Policy".
  change (Str.CanonicalMIMEHeaderKey "X-Content-Type-Options") with "X-Content-Type-Options".
  change (Str.CanonicalMIMEHeaderKey "Permissions-Policy") with "Permissions-Policy".
  change (Str.CanonicalMIMEHeaderKey "X-Frame-Options") with "X-Frame-Options".
  change (Str.CanonicalMIMEHeaderKey "Content-Security-Policy") with "Content-Security-Policy".
  change (Str.CanonicalMIMEHeaderKey "Strict-Transport-Security") with "Strict-Transport-Security".
  repeat match goal with
         | |- context [String.eqb k ?c] =>
             destruct (String.eqb_spec k c) as [-> | ?];
             [by repeat (rewrite lookup_insert_ne by done); rewrite lookup_insert_eq |]
         end.
  by rewrite !lookup_insert_ne.
Qed.

Lemma security_header_value_Some (k : string) :
  k ∈ security_headers <-> is_Some (security_header_value k).
Proof.
  split.
  - unfold security_headers. rewrite !elem_of_cons, elem_of_nil.
    intros [-> | [-> | [-> | [-> | [-> | [-> | []]]]]]]; by eexists.
  - unfold security_header_value, security_headers.
    repeat match goal with
           | |- context [String.eqb k ?c] =>
               destruct (String.eqb_spec k c) as [-> | ?];
               [intros _; rewrite !elem_of_cons; auto 10 |]
           end.
    intros H. by apply is_Some_None in H.
Qed.

Lemma SecureHeaders_secure (h : Handler) (r : Request) (s : World) :
  TLS r <> None -> Scheme (url r) <> "http" ->
  run (SecureHeaders h r) s =
  run (h r) (with_resp (resp_hmap with_security_headers) s).
Proof.
  intros HTLS Hscheme. unfold SecureHeaders.
  rewrite bool_decide_eq_false_2 by done.
  destruct (String.eqb_spec (Scheme (url r)) "http"); [done |].
  cbn [orb]. run_steps. reflexivity.
Qed.

Lemma DefaultCSP_value :
  DefaultCSP =
  "base-uri 'none';default-src 'none';font-src 'self';form-action 'none';frame-ancestors 'none';img-src 'self';style-src 'self'".
Proof. vm_compute. reflexivity. Qed.

Lemma security_header_value_nonempty (k v : string) :
  security_header_value k = Some v -> v <> "".
Proof.
  unfold security_header_value. rewrite DefaultCSP_value.
  repeat match goal with
         | |- context [String.eqb k ?c] =>
             destruct (String.eqb_spec k c) as [-> | ?];
             [intros [= <-]; discriminate |]
         end.
  discriminate.
Qed.

Lemma security_header_value_None (k : string) :
  k ∉ security_headers -> security_header_value k = None.
Proof.
  intros Hk. destruct (security_header_value k) eqn:E; [| done].
  exfalso. apply Hk, security_header_value_Some. by eexists.
Qed.

(** X10: for a request over TLS whose URL scheme is not http, the handler
    made by [SecureHeaders] runs the downstream handler in a world that
    differs only in the header map: each of the six security headers holds
    exactly its one fixed, non-empty value, replacing whatever was there,
    and every other header is as before.  Nothing has been sent or written
    when the downstream handler starts. *)
Theorem SecureHeaders_sets_headers_over_TLS (h : Handler) (r : Request) (s : World) :
  TLS r <> None -> Scheme (url r) <> "http" ->
  exists s1 : World,
    run (SecureHeaders h r) s = run (h r) s1 /\
    s1 = with_resp (resp_hmap with_security_headers) s /\
    (forall k : string, k ∈ security_headers ->
       exists v, security_header_value k = Some v /\ v <> "" /\
                 header (resp s1) !! k = Some [v]) /\
    (forall k : string, k ∉ security_headers ->
       header (resp s1) !! k = header (resp s) !! k) /\
    sent (resp s1) = sent (resp s) /\
    body (resp s1) = body (resp s) /\
    whcalls (resp s1) = whcalls (resp s).
Proof.
  intros HTLS Hscheme. eexists. split; [by apply SecureHeaders_secure |].
  split; [reflexivity |]. cbn [resp with_resp]. autorewrite with resp.
  split; [| split; [| done]].
  - intros k Hk. apply security_header_value_Some in Hk as [v Hv].
    exists v. split; [done |]. split; [by eapply security_header_value_nonempty |].
    by rewrite lookup_with_security_headers, Hv.
  - intros k Hk. by rewrite lookup_with_security_headers, security_header_value_None.
Qed.

Lemma SecureHeaders_sets_headers_over_TLS_witness :
  exists s1 : World,
    run (SecureHeaders (fun _ => call (Write "ok")) get_request) sample_world =
      run (call (Write "ok")) s1 /\
    header (resp s1) !! "X-Frame-Options" = Some ["Deny"].
Proof.
  destruct (SecureHeaders_sets_headers_over_TLS (fun _ => call (Write "ok"))
              get_request sample_world)
    as (s1 & Hrun & -> & _); [discriminate | discriminate |].
  eexists. split; [exact Hrun |]. vm_compute. reflexivity.
Defined.

Lemma SecureHeaders_http_scheme (h : Handler) (r : Request) :
  Scheme (url r) = "http" ->
  SecureHeaders h r =
    http_Redirect (Request_with_URL r (URL_with_Scheme "https" (url r)))
                  (URL_String (URL_with_Scheme "https" (url r)))
                  StatusMovedPermanently.
Proof.
  intros Hs. unfold SecureHeaders. rewrite Hs.
  by rewrite orb_true_r.
Qed.

(** X11: a request whose URL scheme is http is redirected even when it came
    over TLS: the handler made by [SecureHeaders] is then the permanent
    redirect to the URL with scheme https, the downstream handler plays no
    part, no security header is set, and a response not yet started goes
    out with status 301. *)
Theorem SecureHeaders_redirects_http_scheme (h : Handler) (r : Request) (s : World) :
  Scheme (url r) = "http" ->
  let target := URL_String (URL_with_Scheme "https" (url r)) in
  (forall h' : Handler, SecureHeaders h r = SecureHeaders h' r) /\
  exists w : response,
    run (SecureHeaders h r) s = (Done tt, with_resp (fun _ => w) s) /\
    whcalls w = whcalls (resp s) ++ [StatusMovedPermanently] /\
    header w !! "Location" = Some [Str.hexEscapeNonASCII target] /\
    (forall k, k ∈ security_headers -> header w !! k = header (resp s) !! k) /\
    (sent (resp s) = None -> sent w = Some (StatusMovedPermanently, header w)).
Proof.
  intros Hs target. split.
  - intros h'. by rewrite !SecureHeaders_http_scheme.
  - rewrite SecureHeaders_http_scheme by done.
    destruct (run_http_Redirect
                (Request_with_URL r (URL_with_Scheme "https" (url r)))
                target StatusMovedPermanently s)
      as (w & Hrun & Hcalls & Hloc & Hother & Hsent).
    exists w. repeat split; try done.
    intros k Hk. apply security_header_not_redirect_header in Hk as [? ?].
    by apply Hother.
Qed.

Lemma SecureHeaders_redirects_http_scheme_witness :
  TLS http_scheme_request <> None /\
  exists w : response,
    run (SecureHeaders (fun _ => Panic "unreachable") http_scheme_request) sample_world
      = (Done tt, with_resp (fun _ => w) sample_world) /\
    sent_status w = Some 301 /\
    header w !! "Location" = Some ["https://bwsd.net/index.html"].
Proof.
  split; [discriminate |].
  destruct (SecureHeaders_redirects_http_scheme (fun _ => Panic "unreachable")
              http_scheme_request sample_world eq_refl)
    as (_ & w & Hrun & _ & Hloc & _ & Hsent).
  exists w. split; [exact Hrun |]. split.
  - unfold sent_status. by rewrite Hsent.
  - rewrite Hloc. vm_compute. reflexivity.
Defined.

(* ===================================================================== *)
(** ** The chain of the TLS listener: SecureHeaders around AcceptHeaders *)
(* ===================================================================== *)

Lemma middleware_unfold (mux : Handler) :
  middleware mux = SecureHeaders (AcceptHeaders [] mux).
Proof. reflexivity. Qed.

Lemma AcceptHeaders_long (m : list string) (h : Handler) (r : Request) :
  maxURILen <= Str.len (URL_String (url r)) ->
  AcceptHeaders m h r = http_Error "Request URI Too Long" 414.
Proof.
  intros Hlen. unfold AcceptHeaders.
  by destruct (Z.leb_spec maxURILen (Str.len (URL_String (url r)))); [| lia].
Qed.

(** X12: a URL whose string has 512 bytes or more is answered 414 whatever
    the method and whatever the allow-list given to [AcceptHeaders]: the
    handler is [http.Error] with "Request URI Too Long", the downstream
    handler plays no part, and a response not yet started goes out with
    status 414 and content type text/plain. *)
Theorem AcceptHeaders_rejects_long_URL
    (m : list string) (h : Handler) (r : Request) (s : World) :
  maxURILen <= Str.len (URL_String (url r)) ->
  AcceptHeaders m h r = http_Error "Request URI Too Long" 414 /\
  run (AcceptHeaders m h r) s =
    (Done tt, with_resp (resp_Error "Request URI Too Long" 414) s) /\
  (sent (resp s) = None ->
   exists hs : Header,
     sent (resp_Error "Request URI Too Long" 414 (resp s)) = Some (414, hs) /\
     hs !! "Content-Type" = Some ["text/plain; charset=utf-8"]).
Proof.
  intros Hlen. rewrite AcceptHeaders_long by done.
  split; [reflexivity |]. split; [apply run_http_Error |].
  intros Hs. unfold resp_Error. autorewrite with resp. rewrite Hs.
  eexists. split; [reflexivity |].
  rewrite lookup_Header_Set_ne by done.
  apply (lookup_Header_Set_eq "Content-Type").
Qed.

Lemma AcceptHeaders_rejects_long_URL_witness :
  AcceptHeaders ["GET"] (fun _ => Panic "unreachable") long_request =
    http_Error "Request URI Too Long" 414.
Proof.
  apply (AcceptHeaders_rejects_long_URL ["GET"] (fun _ => Panic "unreachable")
           long_request sample_world).
  vm_compute. discriminate.
Defined.

(** X13: for a URL under 512 bytes, [AcceptHeaders] hands the request to
    the downstream handler exactly when its method is GET, HEAD or OPTIONS,
    compared byte for byte, and otherwise answers 405 with "Method Not
    Allowed" without calling the downstream handler; the list it was given
    makes no difference. *)
Theorem AcceptHeaders_default_gate
    (m : list string) (h : Handler) (r : Request) (s : World) :
  Str.len (URL_String (url r)) < maxURILen ->
  (Method r ∈ ["GET"; "HEAD"; "OPTIONS"] ->
     AcceptHeaders m h r = h r) /\
  (Method r ∉ ["GET"; "HEAD"; "OPTIONS"] ->
     AcceptHeaders m h r = http_Error "Method Not Allowed" 405 /\
     run (AcceptHeaders m h r) s =
       (Done tt, with_resp (resp_Error "Method Not Allowed" 405) s)).
Proof.
  intros Hlen. rewrite (AcceptHeaders_short_URL m h r Hlen).
  unfold DefaultAllowedMethods. split; intros Hm.
  - by rewrite bool_decide_eq_true_2.
  - rewrite bool_decide_eq_false_2 by done.
    split; [reflexivity | apply run_http_Error].
Qed.

Lemma AcceptHeaders_default_gate_witness :
  AcceptHeaders ["PUT"] (fun _ => Panic "unreachable") put_request =
    http_Error "Method Not Allowed" 405.
Proof.
  destruct (AcceptHeaders_default_gate ["PUT"] (fun _ => Panic "unreachable")
              put_request sample_world) as [_ H].
  { vm_compute. reflexivity. }
  apply H. rewrite !elem_of_cons, elem_of_nil.
  intros [? | [? | [? | []]]]; discriminate.
Defined.

(** X14: in the chain of the TLS listener the redirect comes first: a
    request that did not arrive over TLS is answered by the permanent
    redirect whatever its method and however long its URL, so it never
    gets the 405 or the 414 of the method gate, and the handler behind the
    chain is not called. *)
Theorem middleware_redirects_before_gate (mux : Handler) (r : Request) (s : World) :
  TLS r = None ->
  middleware mux r =
    http_Redirect (Request_with_URL r (URL_with_Scheme "https" (url r)))
                  (URL_String (URL_with_Scheme "https" (url r)))
                  StatusMovedPermanently /\
  exists w : response,
    run (middleware mux r) s = (Done tt, with_resp (fun _ => w) s) /\
    whcalls w = whcalls (resp s) ++ [301] /\
    (sent (resp s) = None -> sent_status w = Some 301).
Proof.
  intros HTLS. rewrite middleware_unfold, SecureHeaders_plaintext by done.
  split; [reflexivity |].
  destruct (run_http_Redirect
              (Request_with_URL r (URL_with_Scheme "https" (url r)))
              (URL_String (URL_with_Scheme "https" (url r)))
              StatusMovedPermanently s)
    as (w & Hrun & Hcalls & _ & _ & Hsent).
  exists w. split; [exact Hrun |]. split; [exact Hcalls |].
  intros Hs. unfold sent_status. by rewrite Hsent.
Qed.

Lemma middleware_redirects_before_gate_witness :
  exists w : response,
    run (middleware (fun _ => Panic "unreachable")
           (mkRequest "DELETE" long_url "HTTP/1.1" ∅ "bwsd.net" None
                      "192.0.2.1:4000" None None []))
        sample_world = (Done tt, with_resp (fun _ => w) sample_world) /\
    sent_status w = Some 301.
Proof.
  destruct (middleware_redirects_before_gate (fun _ => Panic "unreachable")
              (mkRequest "DELETE" long_url "HTTP/1.1" ∅ "bwsd.net" None
                         "192.0.2.1:4000" None None [])
              sample_world eq_refl)
    as (_ & w & Hrun & _ & Hsent).
  exists w. split; [exact Hrun | by apply Hsent].
Defined.

Lemma security_headers_survive_Error (hd : Header) (k v : string) :
  security_header_value k = Some v ->
  Header_Set "X-Content-Type-Options" "nosniff"
    (Header_Set "Content-Type" "text/plain; charset=utf-8"
       (with_security_headers hd)) !! k = Some [v].
Proof.
  intros Hv.
  destruct (String.eqb_spec k "X-Content-Type-Options") as [-> | Hne].
  - injection Hv as <-. apply (lookup_Header_Set_eq "X-Content-Type-Options").
  - rewrite lookup_Header_Set_ne by done.
    destruct (String.eqb_spec k "Content-Type") as [-> | Hne'].
    + discriminate Hv.
    + rewrite lookup_Header_Set_ne by done.
      by rewrite lookup_with_security_headers, Hv.
Qed.

Lemma sent_resp_Error_fresh (error : string) (code : Z) (w : response) :
  sent w = None ->
  sent (resp_Error error code w) =
    Some (code,
          Header_Set "X-Content-Type-Options" "nosniff"
            (Header_Set "Content-Type" "text/plain; charset=utf-8" (header w))).
Proof.
  intros Hs. unfold resp_Error. autorewrite with resp. by rewrite Hs.
Qed.

(** X15: in the chain of the TLS listener, for a request over TLS whose
    URL scheme is not http: a request under the length limit with method
    GET, HEAD or OPTIONS reaches the handler behind the chain with the six
    security headers set; any other request is answered by the gate, 414
    for a URL of 512 bytes or more and else 405, and that answer, when the
    response had not started, goes out carrying each security header with
    its fixed value. *)
Theorem middleware_over_TLS (mux : Handler) (r : Request) (s : World) :
  TLS r <> None -> Scheme (url r) <> "http" ->
  let s1 := with_resp (resp_hmap with_security_headers) s in
  (Str.len (URL_String (url r)) < maxURILen ->
   Method r ∈ ["GET"; "HEAD"; "OPTIONS"] ->
   run (middleware mux r) s = run (mux r) s1) /\
  (maxURILen <= Str.len (URL_String (url r)) \/ Method r ∉ ["GET"; "HEAD"; "OPTIONS"] ->
   exists code : Z,
     code = (if maxURILen <=? Str.len (URL_String (url r)) then 414 else 405) /\
     run (middleware mux r) s =
       (Done tt, with_resp (resp_Error (StatusText code) code) s1) /\
     (sent (resp s) = None ->
      exists hs : Header,
        sent (resp_Error (StatusText code) code (resp s1)) = Some (code, hs) /\
        forall k v, security_header_value k = Some v -> hs !! k = Some [v])).
Proof.
  intros HTLS Hscheme s1. rewrite middleware_unfold, SecureHeaders_secure by done.
  fold s1. split.
  - intros Hlen Hm.
    rewrite (AcceptHeaders_short_URL [] mux r Hlen).
    unfold DefaultAllowedMethods. by rewrite bool_decide_eq_true_2.
  - intros Hbad.
    destruct (Z.leb_spec maxURILen (Str.len (URL_String (url r)))) as [Hlong | Hshort].
    + exists 414. split; [reflexivity |].
      rewrite AcceptHeaders_long by done.
      split; [apply run_http_Error |].
      intros Hs. eexists. split; [by apply sent_resp_Error_fresh |].
      intros k v Hv. by apply security_headers_survive_Error.
    + destruct Hbad as [? | Hm]; [lia |].
      exists 405. split; [reflexivity |].
      rewrite (AcceptHeaders_short_URL [] mux r Hshort).
      unfold DefaultAllowedMethods. rewrite bool_decide_eq_false_2 by done.
      split; [apply run_http_Error |].
      intros Hs. eexists. split; [by apply sent_resp_Error_fresh |].
      intros k v Hv. by apply security_headers_survive_Error.
Qed.

Lemma middleware_over_TLS_witness :
  run (middleware (fun _ => call (Write "ok")) get_request) sample_world =
    run (call (Write "ok"))
        (with_resp (resp_hmap with_security_headers) sample_world).
Proof.
  destruct (middleware_over_TLS (fun _ => call (Write "ok")) get_request sample_world)
    as [H _]; [discriminate | discriminate |].
  apply H.
  - vm_compute. reflexivity.
  - rewrite !elem_of_cons. by left.
Defined.

(* ===================================================================== *)
(** ** More on the static responder *)
(* ===================================================================== *)

Lemma run_FileServer (r : Request) (s : World) :
  run (FileServer_ServeHTTP r) s =
  (Done tt,
   match files s !! Path (url r) with
   | Some content =>
       with_resp (resp_Write content) (with_opened (fun o => o ++ [Path (url r)]) s)
   | None =>
       with_resp (resp_Error "404 page not found" 404)
                 (with_opened (fun o => o ++ [Path (url r)]) s)
   end).
Proof.
  unfold FileServer_ServeHTTP. rewrite run_bind, run_call. cbn [step fst snd].
  destruct (files s !! Path (url r)).
  - rewrite run_call. reflexivity.
  - unfold http_NotFound. rewrite run_http_Error. reflexivity.
Qed.

(** X16: [Index] serves two file names only.  For a path outside the ACME
    challenge prefix whose last element is neither robots.txt nor
    security.txt, [Index] returns without touching anything: no header is
    set, nothing is written, and the file tree is not consulted, whether or
    not it holds a file of that name. *)
Theorem Index_other_paths_untouched (r : Request) (s : World) :
  Str.HasPrefix (Path (url r)) "/.well-known/acme-challenge/" = false ->
  Str.path_Base (Path (url r)) <> "robots.txt" ->
  Str.path_Base (Path (url r)) <> "security.txt" ->
  Index r = Ret tt /\ run (Index r) s = (Done tt, s).
Proof.
  intros Hpre H1 H2. unfold Index, serveStaticFS. rewrite Hpre.
  destruct (String.eqb_spec (Str.path_Base (Path (url r))) "robots.txt"); [done |].
  destruct (String.eqb_spec (Str.path_Base (Path (url r))) "security.txt"); [done |].
  by split.
Qed.

Lemma Index_other_paths_untouched_witness :
  run (Index sample_request)
      (mkWorld response_new [] [] (clock sample_world) 0 [] ""
               {[ "/index.html" := "<html></html>" ]} []
               (keygen sample_world) (sign sample_world)) =
  (Done tt,
   mkWorld response_new [] [] (clock sample_world) 0 [] ""
           {[ "/index.html" := "<html></html>" ]} []
           (keygen sample_world) (sign sample_world)).
Proof.
  apply Index_other_paths_untouched.
  - vm_compute. reflexivity.
  - vm_compute. discriminate.
  - vm_compute. discriminate.
Defined.

(** X17: a GET request without range or conditional headers, for a
    cleaned rooted name whose last element is robots.txt.  [serveStaticFS]
    sets Cache-Control to max-age=300 and Content-Type to text/plain, and
    the file is looked up once, under the full name.  On a response not yet
    started the client gets 200 with the bytes of the file when the file is
    there, and 404 with the not-found text when it is not; both answers
    have the text/plain Content-Type, and the 200 carries the
    Cache-Control value.  For security.txt the same holds except that
    Cache-Control is left as it was. *)
Theorem serveStaticFS_well_known_files (r : Request) (name : string) (s : World) :
  Str.path_Base name = "robots.txt" \/ Str.path_Base name = "security.txt" ->
  whole_file_request r name = true ->
  sent (resp s) = None ->
  exists (s' : World) (hs : Header),
    run (serveStaticFS r name) s = (Done tt, s') /\
    opened s' = opened s ++ [name] /\
    logs s' = logs s /\
    sent (resp s') =
      Some (match files s !! name with Some _ => 200 | None => 404 end, hs) /\
    body (resp s') =
      body (resp s) +:+
      match files s !! name with
      | Some content => content
      | None => "404 page not found" +:+ Str.newline
      end /\
    hs !! "Content-Type" = Some ["text/plain; charset=utf-8"] /\
    (is_Some (files s !! name) ->
     hs !! "Cache-Control" =
       (if String.eqb (Str.path_Base name) "robots.txt"
        then Some ["max-age=300"]
        else header (resp s) !! "Cache-Control")).
Proof.
  intros Hbase _ Hsent. unfold serveStaticFS.
  destruct (String.eqb_spec (Str.path_Base name) "robots.txt") as [Hr | Hr].
  - run_steps. rewrite run_FileServer.
    cbn [files with_resp url Path Request_with_URL URL_with_Path].
    destruct (files s !! name) as [content |];
      eexists _, _; (split; [reflexivity |]);
      cbn [opened logs resp with_resp with_opened]; unfold resp_Error;
      autorewrite with resp; rewrite Hsent; cbn [default from_option id];
      (split; [reflexivity |]); (split; [reflexivity |]);
      (split; [reflexivity |]); (split; [reflexivity |]);
      (split; [| by intros _; rewrite ?lookup_Header_Set_ne by done;
                    apply (lookup_Header_Set_eq "Cache-Control")]).
    + apply (lookup_Header_Set_eq "Content-Type").
    + rewrite lookup_Header_Set_ne by done.
      apply (lookup_Header_Set_eq "Content-Type").
  - destruct Hbase as [? | Hs]; [done |].
    destruct (String.eqb_spec (Str.path_Base name) "security.txt"); [| done].
    run_steps. rewrite run_FileServer.
    cbn [files with_resp url Path Request_with_URL URL_with_Path].
    destruct (files s !! name) as [content |];
      eexists _, _; (split; [reflexivity |]);
      cbn [opened logs resp with_resp with_opened]; unfold resp_Error;
      autorewrite with resp; rewrite Hsent; cbn [default from_option id];
      (split; [reflexivity |]); (split; [reflexivity |]);
      (split; [reflexivity |]); (split; [reflexivity |]);
      (split; [| by intros _; rewrite ?lookup_Header_Set_ne by done]).
    + apply (lookup_Header_Set_eq "Content-Type").
    + rewrite lookup_Header_Set_ne by done.
      apply (lookup_Header_Set_eq "Content-Type").
Qed.

Lemma serveStaticFS_well_known_files_witness :
  whole_file_request robots_request "/robots.txt" = true /\
  exists (s' : World) (hs : Header),
    run (serveStaticFS robots_request "/robots.txt") robots_world = (Done tt, s') /\
    sent (resp s') = Some (200, hs) /\
    body (resp s') = "User-agent: *" /\
    hs !! "Cache-Control" = Some ["max-age=300"].
Proof.
  split; [vm_compute; reflexivity |].
  destruct (serveStaticFS_well_known_files robots_request "/robots.txt" robots_world)
    as (s' & hs & Hrun & _ & _ & Hsent & Hbody & _ & Hcc).
  { left. vm_compute. reflexivity. }
  { vm_compute. reflexivity. }
  { reflexivity. }
  exists s', hs. split; [exact Hrun |].
  split; [rewrite Hsent; vm_compute; reflexivity |].
  split; [rewrite Hbody; vm_compute; reflexivity |].
  rewrite Hcc; [vm_compute; reflexivity |]. vm_compute. eauto.
Defined.

(* ===================================================================== *)
(** ** More on selfSignedX509 *)
(* ===================================================================== *)



Lemma run_rand_Int_128 (s : World) :
  run rand_Int_128 s =
  if decide (16 <= length (entropy s))%nat
  then (Done (Some (big_endian 0 (take 16 (entropy s)))),
        with_entropy (drop 16 (entropy s)) s)
  else (Done None, with_entropy [] s).
Proof.
  unfold rand_Int_128. rewrite run_bind, run_call. cbn [step].
  by destruct (decide _).
Qed.



(** X19: [selfSignedX509] never panics and never touches the response or the
    log, and it returns a configuration only if every step succeeded: when
    key generation fails it returns that error with the world unchanged;
    when fewer than sixteen bytes of entropy are left for the serial number
    it returns the serial-number error without reading the clock; when
    signing fails it returns that error. *)
Theorem selfSignedX509_failures (dirCache : string) (s : World) :
  exists (res : TLSConfig + string) (s' : World),
    run (selfSignedX509 dirCache) s = (Done res, s') /\
    resp s' = resp s /\ logs s' = logs s /\
    (keygen s (entropy s) = None ->
       res = inr "ecdsa.GenerateKey" /\ s' = s) /\
    (forall key rest, keygen s (entropy s) = Some (key, rest) ->
       ((length rest < 16)%nat ->
          res = inr "serial number" /\ ticks s' = ticks s) /\
       ((16 <= length rest)%nat ->
          (forall cfg, res = inl cfg ->
             CertPrivateKey cfg = key /\
             exists der, CertificateDER cfg = [der] /\
                         sign s (tbs der) key = Some (signature der)) /\
          ((forall tmpl, sign s tmpl key = None) ->
             res = inr "x509.CreateCertificate"))).
Proof.
  unfold selfSignedX509. rewrite run_bind, run_call. cbn [step].
  destruct (keygen s (entropy s)) as [[key rest] |] eqn:Hkey; cbn [fst snd].
  2:{ cbn [run]. eexists _, _. split; [reflexivity |].
      repeat split; try done. }
  rewrite run_bind, run_rand_Int_128. cbn [entropy with_entropy].
  destruct (decide (16 <= length rest)%nat) as [Hlen | Hlen].
  2:{ cbn [run]. eexists _, _. split; [reflexivity |].
      split; [reflexivity |]. split; [reflexivity |]. split; [done |].
      intros key' rest' [= <- <-]. split; [done | intros; lia]. }
  rewrite run_bind, run_call. cbn [step fst snd].
  rewrite run_bind, run_call. cbn [step fst snd].
  rewrite run_bind, run_call. cbn [step fst snd sign with_ticks with_entropy].
  match goal with
  | |- context [sign s ?t key] => destruct (sign s t key) as [sg |] eqn:Hsg
  end; cbn [fmap option_fmap option_map run];
    eexists _, _; (split; [reflexivity |]);
    (split; [reflexivity |]); (split; [reflexivity |]); (split; [done |]);
    intros key' rest' [= <- <-]; (split; [intros; lia |]); intros _.
  - split.
    + intros cfg [= <-]. split; [reflexivity |]. eexists. split; [reflexivity |].
      exact Hsg.
    + intros Hnone. by rewrite Hnone in Hsg.
  - split; [intros cfg; discriminate | done].
Qed.

(* ===================================================================== *)
(** ** DefaultCSP does not depend on the order of the map *)
(* ===================================================================== *)

Lemma string_compare_trans (a b c : string) :
  String.compare a b <> Gt -> String.compare b c <> Gt -> String.compare a c <> Gt.
Proof.
  revert b c. induction a as [| x a IH]; intros [| y b] [| z c]; simpl; try easy.
  unfold Ascii.compare.
  destruct (N.compare_spec (N_of_ascii x) (N_of_ascii y)) as [Hxy | Hxy | Hxy];
    destruct (N.compare_spec (N_of_ascii y) (N_of_ascii z)) as [Hyz | Hyz | Hyz];
    destruct (N.compare_spec (N_of_ascii x) (N_of_ascii z)) as [Hxz | Hxz | Hxz];
    try easy; try lia.
  apply IH.
Qed.

Lemma string_le_trans (a b c : string) :
  string_le a b -> string_le b c -> string_le a c.
Proof.
  unfold string_le, String.leb. intros Hab Hbc.
  pose proof (string_compare_trans a b c) as H.
  destruct (String.compare a b), (String.compare b c), (String.compare a c);
    try done; exfalso; apply H; done.
Qed.

Lemma string_le_total (a b : string) : string_le a b \/ string_le b a.
Proof. apply String.leb_total. Qed.

Lemma string_le_antisym (a b : string) : string_le a b -> string_le b a -> a = b.
Proof. apply String.leb_antisym. Qed.

Lemma insert_sorted_comm (x y : string) (l : list string) :
  Str.insert_sorted x (Str.insert_sorted y l) =
  Str.insert_sorted y (Str.insert_sorted x l).
Proof.
  induction l as [| c l IH].
  - simpl. destruct (String.leb x y) eqn:Hxy, (String.leb y x) eqn:Hyx; try done.
    + by rewrite (string_le_antisym x y Hxy Hyx).
    + destruct (string_le_total x y) as [H | H]; unfold string_le in H; congruence.
  - cbn [Str.insert_sorted].
    destruct (String.leb y c) eqn:Hyc, (String.leb x c) eqn:Hxc;
      cbn [Str.insert_sorted]; rewrite ?Hyc, ?Hxc.
    + destruct (String.leb x y) eqn:Hxy, (String.leb y x) eqn:Hyx;
        rewrite ?Hyc, ?Hxc; try done.
      * by rewrite (string_le_antisym x y Hxy Hyx).
      * destruct (string_le_total x y) as [H | H]; unfold string_le in H; congruence.
    + destruct (String.leb x y) eqn:Hxy; [| done].
      pose proof (string_le_trans x y c Hxy Hyc) as H. unfold string_le in H.
      congruence.
    + destruct (String.leb y x) eqn:Hyx; [| done].
      pose proof (string_le_trans y x c Hyx Hxc) as H. unfold string_le in H.
      congruence.
    + by rewrite IH.
Qed.

Lemma sort_strings_Permutation (l1 l2 : list string) :
  l1 ≡ₚ l2 -> Str.sort_strings l1 = Str.sort_strings l2.
Proof.
  unfold Str.sort_strings.
  induction 1 as [| x l1 l2 _ IH | x y l | l1 l2 l3 _ IH1 _ IH2]; simpl.
  - reflexivity.
  - by rewrite IH.
  - apply insert_sorted_comm.
  - by rewrite IH1.
Qed.

(** X20: [DefaultCSP] does not depend on the order in which [init] ranges
    over the [csp] map: whatever order the entries come in, building one
    directive string per entry, sorting them and joining them with
    semicolons gives the same policy string. *)
Theorem DefaultCSP_order_independent :
  forall entries : list (string * list string),
    entries ≡ₚ map_to_list csp ->
    Str.Join (Str.sort_strings (csp_directives entries)) ";" = DefaultCSP.
Proof.
  intros entries Hperm. unfold DefaultCSP.
  f_equal. apply sort_strings_Permutation.
  unfold csp_directives. by apply fmap_Permutation.
Qed.

Lemma DefaultCSP_order_independent_witness :
  Str.Join (Str.sort_strings (csp_directives (reverse (map_to_list csp)))) ";"
  = DefaultCSP.
Proof.
  apply DefaultCSP_order_independent. apply reverse_Permutation.
Defined.

(* ===================================================================== *)
(** ** The host policy *)
(* ===================================================================== *)

Lemma length_append (a b : string) :
  String.length (a +:+ b) = (String.length a + String.length b)%nat.
Proof.
  induction a as [| x a IH]; [reflexivity |].
  change (S (String.length (a +:+ b)) = S (String.length a + String.length b)).
  by rewrite IH.
Qed.

Lemma substring_all (s : string) : String.substring 0 (String.length s) s = s.
Proof. induction s as [| x s IH]; simpl; [done | by rewrite IH]. Qed.

Lemma substring_skip_append (p s : string) (m : nat) :
  String.substring (String.length p) m (p +:+ s) = String.substring 0 m s.
Proof.
  induction p as [| x p IH]; [reflexivity |].
  change (String.substring (S (String.length p)) m (String x (p +:+ s)) =
          String.substring 0 m s).
  cbn [String.substring]. exact IH.
Qed.

Lemma substring_split (s : string) (n : nat) :
  (n <= String.length s)%nat ->
  s = String.substring 0 n s +:+ String.substring n (String.length s - n) s.
Proof.
  revert n. induction s as [| x s IH]; intros n Hn.
  - destruct n; [reflexivity | simpl in Hn; lia].
  - destruct n as [| n].
    + cbn [String.substring]. rewrite Nat.sub_0_r.
      change (String x s = String.substring 0 (String.length (String x s)) (String x s)).
      by rewrite substring_all.
    + cbn [String.substring String.length Nat.sub].
      change (String x s =
              String x (String.substring 0 n s +:+
                        String.substring n (String.length s - n) s)).
      f_equal. apply IH. simpl in Hn. lia.
Qed.

Lemma HasSuffix_spec (s suffix : string) :
  HasSuffix s suffix = true <-> exists p, s = p +:+ suffix.
Proof.
  unfold HasSuffix. rewrite andb_true_iff, Nat.leb_le, String.eqb_eq. split.
  - intros [Hlen Hsub].
    exists (String.substring 0 (String.length s - String.length suffix) s).
    pose proof (substring_split s (String.length s - String.length suffix)
                  ltac:(lia)) as Hsplit.
    replace (String.length s - (String.length s - String.length suffix))%nat
      with (String.length suffix) in Hsplit by lia.
    by rewrite Hsub in Hsplit.
  - intros [p ->]. rewrite length_append. split; [lia |].
    replace (String.length p + String.length suffix - String.length suffix)%nat
      with (String.length p) by lia.
    rewrite substring_skip_append. apply substring_all.
Qed.

(** X21: the host policy of the automated certificate path.  When the
    machine's host name cannot be read, every host is refused with that
    error.  Otherwise a host is accepted exactly when it is the host name
    itself or ends with a dot followed by the host name; a refused host
    gets the "disallowed" error naming it. *)
Theorem HostPolicy_accepts_own_domain (hostname : string + string) (host : string) :
  match hostname with
  | inr err => HostPolicy hostname host = Some (HostnameError err)
  | inl domain =>
      (HostPolicy hostname host = None <->
       host = domain \/ exists label, host = label +:+ "." +:+ domain) /\
      (HostPolicy hostname host <> None ->
       HostPolicy hostname host = Some (DomainDisallowed host))
  end.
Proof.
  destruct hostname as [domain | err]; [| reflexivity].
  unfold HostPolicy.
  destruct (HasSuffix host ("." +:+ domain)) eqn:Hsuf;
    destruct (String.eqb_spec host domain) as [Heq | Hne]; cbn [negb andb].
  - split; [| done]. split; [by left | done].
  - split; [| done]. split; [| done].
    intros _. right. apply HasSuffix_spec in Hsuf as [p ->]. by exists p.
  - split; [| done]. split; [by left | done].
  - split; [| done]. split; [done |].
    intros [? | [label ->]]; [done |].
    assert (HasSuffix (label +:+ "." +:+ domain) ("." +:+ domain) = true)
      by (apply HasSuffix_spec; by exists label).
    congruence.
Qed.

(* ===================================================================== *)
(** ** More on Recover, the identifier source and the Apply loop *)
(* ===================================================================== *)

(** X22: when the downstream handler returns, [Recover] changes nothing:
    it ends in the world the downstream handler ended in, with no 500
    written, no panic line logged and no stack printed. *)
Theorem Recover_transparent_on_return
    (next : Handler) (r : Request) (s s1 : World) :
  run (next r) s = (Done tt, s1) ->
  run (Recover next r) s = (Done tt, s1) /\
  wh_codes (Recover next r) s = wh_codes (next r) s.
Proof.
  intros Hrun. split.
  - by rewrite run_Recover, Hrun.
  - unfold Recover. rewrite wh_codes_defer_recover, Hrun. apply app_nil_r.
Qed.

Lemma Recover_transparent_on_return_witness :
  run (Recover (fun _ => call (Write "ok")) sample_request) sample_world =
  (Done tt, with_resp (resp_Write "ok") sample_world).
Proof.
  apply (Recover_transparent_on_return (fun _ => call (Write "ok"))).
  reflexivity.
Defined.

(** X23: the three ways [NewRequestContext] picks the identifier.  With a
    non-empty "uuid" header it stores the all-zero identifier and reads no
    entropy.  With no such header and sixteen bytes of entropy at hand it
    stores a version-4 identifier made of those bytes and logs nothing.
    With no such header and less entropy it logs the UUID error once and
    stores the bytes that were read, padded with zeros, without version or
    variant bits; the entropy is then used up. *)
Theorem NewRequestContext_cases (r : Request) (s : World) :
  exists (uuid : UUID) (s0 : World),
    run (NewRequestContext r) s =
      (Done (Context_WithValue (ctx r) "uuid" (CtxUUID uuid)), s0) /\
    (Header_Get "uuid" (ReqHeader r) <> "" -> uuid = UUID_zero /\ s0 = s) /\
    (Header_Get "uuid" (ReqHeader r) = "" -> (16 <= length (entropy s))%nat ->
       Z.shiftr (default 0 (uuid !! 6%nat)) 4 = 4 /\
       Z.shiftr (default 0 (uuid !! 8%nat)) 6 = 2 /\
       (forall i : nat, i <> 6%nat -> i <> 8%nat ->
          uuid !! i = take 16 (entropy s) !! i) /\
       s0 = with_entropy (drop 16 (entropy s)) s) /\
    (Header_Get "uuid" (ReqHeader r) = "" -> (length (entropy s) < 16)%nat ->
       uuid = entropy s ++ replicate (16 - length (entropy s)) 0 /\
       s0 = add_logs [LogUUIDError] (with_entropy [] s)).
Proof.
  unfold NewRequestContext.
  destruct (String.eqb_spec (Header_Get "uuid" (ReqHeader r)) "") as [He | He].
  - rewrite run_bind, run_bind. unfold NewV4UUIDRandom, NewV4UUID.
    rewrite run_bind, run_call. cbn [step].
    destruct (decide (16 <= length (entropy s))%nat) as [Hlen | Hlen];
      cbn [fst snd negb run]; rewrite run_bind; cbn [run].
    + eexists _, _. split; [reflexivity |]. split; [done |].
      split; [| intros; lia]. intros _ _. unfold UUID.
      split; [| split; [| split; [| reflexivity]]].
      * rewrite (list_lookup_insert_ne _ 8 6) by done.
        rewrite list_lookup_insert_eq by (rewrite length_take; lia).
        apply version_nibble.
      * rewrite (list_lookup_insert_eq _ 8)
          by (rewrite length_insert, length_take; lia).
        apply variant_bits.
      * intros i H6 H8. by rewrite !list_lookup_insert_ne.
    + rewrite run_call. cbn [step fst snd run].
      eexists _, _. split; [reflexivity |]. split; [done |].
      split; [intros; lia |]. intros _ _. by split.
  - cbn [run bind]. eexists _, _. split; [reflexivity |].
    split; [done |]. split; intros; done.
Qed.

(** X24: the loop of [Apply] never indexes its slice out of range: at every
    step [i] below the number of middlewares, [m[len(m)-1-i]] exists and the
    step applies it. *)
Theorem Apply_loop_in_range (m : list Middleware) (h : Handler) (i : nat) :
  (i < length m)%nat ->
  exists mw : Middleware,
    m !! (length m - 1 - i)%nat = Some mw /\ Apply_step m h i = mw h.
Proof.
  intros Hi. unfold Apply_step.
  destruct (m !! (length m - 1 - i)%nat) as [mw |] eqn:Hmw.
  - by exists mw.
  - apply (lookup_ge_None (A:=Middleware)) in Hmw. lia.
Qed.

Lemma Apply_loop_in_range_witness :
  exists mw : Middleware,
    [Log; Recover] !! (length [Log; Recover] - 1 - 0)%nat = Some mw /\
    Apply_step [Log; Recover] Index 0 = mw Index.
Proof. apply Apply_loop_in_range. simpl. lia. Defined.
